(** * Forced-choice trial generator for the Mnemonic Similarity Task

    A shallow embedding of [forced_choice_trial_generator.py] and the
    properties of its four functions and of the pipeline that chains them.

    Conventions of the embedding.
    - The lure-bin file read by [np.loadtxt] is its parsed content: a list
      of rows [(image, bin)].  The file holds integer-valued numbers, so
      the float cells are integers of [Z] and [astype('int')] is the
      identity on them.
    - [num_cond] and [img_per_cond] are array dimensions and live in [nat]
      ([np.zeros] rejects negative dimensions).
    - A 1-d array is a list, a 2-d array is the list of its rows.
    - Every random draw of the script is a call to [np.random.permutation]
      on the process-wide generator; the generator state is threaded
      explicitly through a state-and-error monad.
    - NumPy is the 1.x line the script was written for ([np.row_stack] is
      still a plain alias there): [np.char.zfill a width] allocates its
      result with item size [width]. *)

From Stdlib Require Import String Ascii DecimalString DecimalPos DecimalZ.
From Stdlib Require Import ZArith Arith Bool List Permutation Sorted Lia.
From Stdlib Require Import OrderedTypeEx.
Import ListNotations.

Set Implicit Arguments.

(** ** Errors raised by NumPy *)

Inductive np_error : Type :=
| IndexError   (* too many indices, or a row index out of bounds *)
| ValueError.  (* reshape with a wrong size, column_stack of unequal lengths *)

Inductive result (A : Type) : Type :=
| Ok (a : A)
| Err (e : np_error).

Arguments Ok {A} a.
Arguments Err {A} e.

(** ** The process-wide random source

    The script only ever calls [np.random.permutation].  Whatever the
    generator does, the array it returns is a rearrangement of its
    argument; that is the one law the development relies on, so every
    theorem of the [Pipeline] section holds for every sequence of draws. *)

Class RandomSource (G : Type) : Type := {
  np_random_permutation : forall A : Type, list A -> G -> list A * G;
  np_random_permutation_perm :
    forall (A : Type) (l : list A) (g : G),
      Permutation l (fst (np_random_permutation l g))
}.

Arguments np_random_permutation {G _} [A] l g.

(** ** State-and-error monad over the generator state *)

Definition M (G A : Type) : Type := G -> result (A * G).

Definition ret {G A : Type} (a : A) : M G A := fun g => Ok (a, g).

Definition bind {G A B : Type} (m : M G A) (k : A -> M G B) : M G B :=
  fun g => match m g with
           | Ok (a, g') => k a g'
           | Err e => Err e
           end.

Definition lift {G A : Type} (r : result A) : M G A :=
  fun g => match r with
           | Ok a => Ok (a, g)
           | Err e => Err e
           end.

Definition permutation {G : Type} `{RandomSource G} {A : Type} (l : list A)
  : M G (list A) :=
  fun g => Ok (np_random_permutation l g).

Declare Scope monad_scope.
Delimit Scope monad_scope with monad.
Notation "x <- m ;; k" := (bind m (fun x => k))
  (at level 61, m at next level, right associativity) : monad_scope.
Notation "' pat <- m ;; k" := (bind m (fun x => match x with pat => k end))
  (at level 61, pat pattern, m at next level, right associativity) : monad_scope.

Fixpoint mapM {G A B : Type} (f : A -> M G B) (l : list A) : M G (list B) :=
  match l with
  | [] => ret []
  | x :: xs => (y <- f x ;; ys <- mapM f xs ;; ret (y :: ys))%monad
  end.

(** ** NumPy primitives used by the script *)

Module Np.

(** [img_bin[:, 0]] and [img_bin[:, 1]] after [np.loadtxt]: a file of
    fewer than two rows loads as a 1-d array and the two-index
    subscription raises. *)
Definition loadtxt_columns (table : list (Z * Z)) : result (list Z * list Z) :=
  match table with
  | [] | [_] => Err IndexError
  | _ => Ok (map fst table, map snd table)
  end.

(** [np.unique]: the sorted distinct values. *)
Fixpoint insert_unique (x : Z) (l : list Z) : list Z :=
  match l with
  | [] => [x]
  | y :: ys =>
      if (x <? y)%Z then x :: y :: ys
      else if (x =? y)%Z then y :: ys
      else y :: insert_unique x ys
  end.

Definition unique (l : list Z) : list Z := fold_right insert_unique [] l.

(** [imgs[bins == bin_j]]: boolean-mask selection. *)
Definition select (imgs bins : list Z) (bin_j : Z) : list Z :=
  map fst (filter (fun p => (snd p =? bin_j)%Z) (combine imgs bins)).

(** [np.zeros((rows, cols))]. *)
Definition zeros (rows cols : nat) : list (list Z) :=
  repeat (repeat 0%Z cols) rows.

(** Row-major split of a flat list into [rows] rows of [cols] cells. *)
Fixpoint chunks {A : Type} (rows cols : nat) (l : list A) : list (list A) :=
  match rows with
  | 0 => []
  | S r => firstn cols l :: chunks r cols (skipn cols l)
  end.

(** [a.reshape((rows, cols))]: the sizes must agree. *)
Definition reshape {A : Type} (l : list A) (rows cols : nat)
  : result (list (list A)) :=
  if length l =? rows * cols then Ok (chunks rows cols l) else Err ValueError.

(** [arr[:, lo:hi] = blk] for a block of the same shape as the slice. *)
Definition assign_columns (arr : list (list Z)) (lo hi : nat)
           (blk : list (list Z)) : list (list Z) :=
  map (fun rb => firstn lo (fst rb) ++ snd rb ++ skipn hi (fst rb))
      (combine arr blk).

(** [np.repeat(a, n)]: every element [n] times, in order. *)
Definition repeat_each {A : Type} (a : list A) (n : nat) : list A :=
  flat_map (fun x => repeat x n) a.

(** [np.tile(a, 3)]. *)
Definition tile3 {A : Type} (a : list A) : list A := a ++ a ++ a.

(** [enumerate]. *)
Definition enumerate {A : Type} (l : list A) : list (nat * A) :=
  combine (seq 0 (length l)) l.

(** [arr[:k]] with Python's reading of a negative bound. *)
Definition slice_to {A : Type} (k : Z) (arr : list A) : list A :=
  if (k <? 0)%Z then firstn (length arr - Z.to_nat (- k)) arr
  else firstn (Z.to_nat k) arr.

(** [arr[i, :]] *)
Definition row (arr : list (list Z)) (i : nat) : result (list Z) :=
  match nth_error arr i with
  | Some r => Ok r
  | None => Err IndexError
  end.

(** [np.column_stack((a, b))] of two 1-d arrays of one length. *)
Definition column_stack2 {A : Type} (a b : list A) : list (list A) :=
  map (fun p => [fst p; snd p]) (combine a b).

(** [astype('str')] of an integer: its decimal rendering. *)
Definition str (z : Z) : string := NilZero.string_of_int (Z.to_int z).

Fixpoint zeros_string (n : nat) : string :=
  match n with
  | 0 => EmptyString
  | S k => String "0" (zeros_string k)
  end.

(** Python's [str.zfill]. *)
Definition py_zfill (s : string) (width : nat) : string :=
  if width <=? String.length s then s
  else
    let fill := zeros_string (width - String.length s) in
    match s with
    | String c rest =>
        if (Ascii.eqb c "+" || Ascii.eqb c "-")%bool
        then String c (fill ++ rest)
        else (fill ++ s)%string
    | EmptyString => fill
    end.

(** [np.char.zfill(a, width)] on one cell: [str.zfill], stored in a cell
    of [width] characters. *)
Definition char_zfill (s : string) (width : nat) : string :=
  substring 0 width (py_zfill s width).

(** [np.char.add(trials, np.array(('a.jpg', 'b.jpg')))]: the suffixes
    broadcast along the last axis. *)
Definition char_add_row (r : list string) (suffixes : list string)
  : list string :=
  map (fun p => (fst p ++ snd p)%string) (combine r suffixes).

End Np.

(** Cells of the table returned by [generate_test_trials].  An array has
    one dtype: stacking string columns with an integer column yields a
    string array, the integers being cast by [str]. *)
Inductive np_scalar : Type :=
| NpInt (z : Z)
| NpStr (s : string).

Definition np_column_stack3 (trials : list (list string))
           (trial_type : list string) (lure_bins : list Z)
  : result (list (list np_scalar)) :=
  if ((length trials =? length trial_type)
      && (length trial_type =? length lure_bins))%bool
  then Ok (map (fun x =>
                  map NpStr (fst (fst x))
                      ++ [NpStr (snd (fst x)); NpStr (Np.str (snd x))])
               (combine (combine trials trial_type) lure_bins))
  else Err ValueError.

(** ** The script *)

Section Pipeline.

Context {G : Type} `{RandomSource G}.

Local Open Scope monad_scope.

(** The body of the [for c_i, bin_j in enumerate(bins_unique)] loop,
    iterated over the remaining pairs. *)
Fixpoint fill_bins (imgs bins : list Z) (num_cond img_per_cond imgs_per_bin : nat)
         (todo : list (nat * Z)) (img_arr : list (list Z))
  : M G (list (list Z)) :=
  match todo with
  | [] => ret img_arr
  | (c_i, bin_j) :: rest =>
      shuffled <- permutation (Np.select imgs bins bin_j) ;;
      let rand_img := firstn img_per_cond shuffled in
      rand_img <- lift (Np.reshape rand_img num_cond imgs_per_bin) ;;
      fill_bins imgs bins num_cond img_per_cond imgs_per_bin rest
        (Np.assign_columns img_arr (c_i * imgs_per_bin)
                           ((1 + c_i) * imgs_per_bin) rand_img)
  end.

Definition generate_matched_bins_imgs (table : list (Z * Z))
           (num_cond img_per_cond : nat)
  : M G (list (list Z) * list Z) :=
  ' (imgs, bins) <- lift (Np.loadtxt_columns table) ;;
  let bins_unique := Np.unique bins in
  let imgs_per_bin := img_per_cond / length bins_unique in
  let img_arr := Np.zeros num_cond img_per_cond in
  img_arr <- fill_bins imgs bins num_cond img_per_cond imgs_per_bin
               (Np.enumerate bins_unique) img_arr ;;
  let lure_bins := Np.repeat_each bins_unique imgs_per_bin in
  ret (img_arr, lure_bins).

(** The [digits] parameter is accepted and not used: the width passed to
    [np.char.zfill] is the literal 3. *)
Definition make_three_digits (x : list Z) (digits : nat) : list string :=
  map (fun z => Np.char_zfill (Np.str z) 3) x.

Definition generate_enc_trials (img_cond_arr : list (list Z)) (num_cond : nat)
  : M G (list string) :=
  trials <- permutation
              (concat (Np.slice_to (Z.of_nat num_cond - 1) img_cond_arr)) ;;
  let trials := make_three_digits trials 3 in
  let trials := map (fun s => (s ++ "a.jpg")%string) trials in
  ret trials.

Definition generate_test_trials (img_cond_arr : list (list Z))
           (bins : list Z) (img_per_cond : nat)
  : M G (list (list np_scalar)) :=
  r0 <- lift (Np.row img_cond_arr 0) ;;
  let a_aprime := Np.column_stack2 r0 r0 in
  r1 <- lift (Np.row img_cond_arr 1) ;;
  r2 <- lift (Np.row img_cond_arr 2) ;;
  let b_cprime := Np.column_stack2 r1 r2 in
  r3 <- lift (Np.row img_cond_arr 3) ;;
  r4 <- lift (Np.row img_cond_arr 4) ;;
  let d_x := Np.column_stack2 r3 r4 in
  let trials := a_aprime ++ b_cprime ++ d_x in
  let trials := map (fun r => make_three_digits r 3) trials in
  let trials := map (fun r => Np.char_add_row r ["a.jpg"; "b.jpg"]%string) trials in
  trials <- mapM (fun r => permutation r) trials ;;
  let trial_type :=
    Np.repeat_each ["A-A'"; "B-C'"; "D-X"]%string img_per_cond in
  let lure_bins := Np.tile3 bins in
  trials <- lift (np_column_stack3 trials trial_type lure_bins) ;;
  permutation trials.

Definition generate_trials (table : list (Z * Z)) (num_cond img_per_cond : nat)
  : M G (list string * list (list np_scalar)) :=
  ' (imgs, bins) <- generate_matched_bins_imgs table num_cond img_per_cond ;;
  enc_trials <- generate_enc_trials imgs num_cond ;;
  test_trials <- generate_test_trials imgs bins img_per_cond ;;
  ret (enc_trials, test_trials).

End Pipeline.

(** ** The check at the end of the script

    The module-level code runs the pipeline and, for every trial type
    found in column 2, prints the distinct lure bins of that type's rows
    and how many rows carry each.  The embedding keeps the values that are
    printed, not their layout as text. *)

Module NpText.

(** [np.unique] on an array of strings: the distinct values in ascending
    order, strings being compared character by character. *)
Fixpoint insert_unique (x : string) (l : list string) : list string :=
  match l with
  | [] => [x]
  | y :: ys =>
      match String.compare x y with
      | Lt => x :: y :: ys
      | Eq => y :: ys
      | Gt => y :: insert_unique x ys
      end
  end.

Definition unique (l : list string) : list string :=
  fold_right insert_unique [] l.

(** [np.unique(a, return_counts=True)]. *)
Definition unique_counts (l : list string) : list string * list nat :=
  let u := unique l in (u, map (count_occ string_dec l) u).

End NpText.

(** [ret[i, j]]: a cell of the returned table, read as text. *)
Definition cell (j : nat) (trial : list np_scalar) : string :=
  match nth_error trial j with
  | Some (NpStr s) => s
  | Some (NpInt z) => Np.str z
  | None => EmptyString
  end.

(** The loop over [np.unique(ret[:, 2])]: for each trial type, its name,
    the distinct bins of its rows and their counts. *)
Definition self_check (ret : list (list np_scalar))
  : list (string * (list string * list nat)) :=
  map (fun cond_i =>
         let curr_trials :=
           filter (fun r => String.eqb (cell 2 r) cond_i) ret in
         (cond_i, NpText.unique_counts (map (cell 3) curr_trials)))
      (NpText.unique (map (cell 2) ret)).

Section ScriptCheck.

Context {G : Type} `{RandomSource G}.

Local Open Scope monad_scope.

(** The module-level code on the content of the lure-bin file, with the
    default [num_cond = 5] and [img_per_cond = 35]. *)
Definition script_check (table : list (Z * Z))
  : M G (list (string * (list string * list nat))) :=
  ' (enc, ret_trials) <- generate_trials table 5 35 ;;
  ret (self_check ret_trials).

End ScriptCheck.

(** ** A concrete random source

    A linear congruential generator driving an insertion shuffle; used to
    run the pipeline on concrete tables. *)

Module Lcg.

Definition next (g : Z) : Z := ((g * 1103515245 + 12345) mod 2147483648)%Z.

Definition insert_at {A : Type} (k : nat) (x : A) (l : list A) : list A :=
  firstn k l ++ x :: skipn k l.

Fixpoint shuffle {A : Type} (l : list A) (g : Z) : list A * Z :=
  match l with
  | [] => ([], g)
  | x :: xs =>
      let (ys, g1) := shuffle xs g in
      let g2 := next g1 in
      (insert_at (Z.to_nat ((g2 / 65536) mod Z.of_nat (S (length ys)))) x ys, g2)
  end.

End Lcg.

(** ** Vocabulary of the statements *)

(** Horizontal concatenation of two arrays with the same number of rows. *)
Definition happend {A : Type} (a b : list (list A)) : list (list A) :=
  map (fun p => fst p ++ snd p) (combine a b).

(** Row [i] of the horizontal concatenation of a list of blocks. *)
Definition hrow {A : Type} (i : nat) (blks : list (list (list A))) : list (list A) :=
  map (fun blk => nth i blk []) blks.

(** Number of rows of the table that carry bin label [b]. *)
Definition count_bin (table : list (Z * Z)) (b : Z) : nat :=
  length (filter (fun p => (snd p =? b)%Z) table).

(** The sorted distinct bin labels of a table. *)
Definition bins_unique (table : list (Z * Z)) : list Z :=
  Np.unique (map snd table).

Definition fails {G A : Type} (m : M G A) (g : G) : Prop :=
  exists e, m g = Err e.

Definition returns {G A : Type} (m : M G A) (g : G) : Prop :=
  exists r, m g = Ok r.

(** One bin's block: the first [img_per_cond] images of a rearrangement of
    the bin's images, cut row-major into [num_cond] rows. *)
Definition block_of (imgs bins : list Z) (num_cond img_per_cond imgs_per_bin : nat)
           (bin_j : Z) (blk : list (list Z)) : Prop :=
  exists shuffled,
    Permutation (Np.select imgs bins bin_j) shuffled
    /\ length (firstn img_per_cond shuffled) = num_cond * imgs_per_bin
    /\ blk = Np.chunks num_cond imgs_per_bin (firstn img_per_cond shuffled).

(** A catalogue of [nbins * per] images numbered from 1, image [i] lying in
    bin [(i - 1) mod nbins + 1]: every bin holds [per] images. *)
Definition catalog (nbins per : nat) : list (Z * Z) :=
  map (fun i => (Z.of_nat i + 1, Z.of_nat (i mod nbins) + 1)%Z)
      (seq 0 (nbins * per)).

(** The rendering of one identifier by [make_three_digits]. *)
Definition fmt3 (z : Z) : string := Np.char_zfill (Np.str z) 3.

Definition trial_types : list string := ["A-A'"; "B-C'"; "D-X"]%string.

(** Column 2 of a test trial. *)
Definition trial_type_of (trial : list np_scalar) : string :=
  match nth_error trial 2 with
  | Some (NpStr s) => s
  | _ => EmptyString
  end.

(** Reading an integer back from its rendering. *)
Definition int_of_str (s : string) : option Z :=
  option_map Z.of_int (NilZero.int_of_string s).

(** Column 3 of a test trial, read as a number. *)
Definition lure_bin_of (trial : list np_scalar) : option Z :=
  match nth_error trial 3 with
  | Some (NpStr s) => int_of_str s
  | Some (NpInt z) => Some z
  | None => None
  end.

(** The trials of one type. *)
Definition trials_of (t : string) (tests : list (list np_scalar))
  : list (list np_scalar) :=
  filter (fun trial => String.eqb (trial_type_of trial) t) tests.

(** The two file names of each column pair, before the left/right shuffle. *)
Definition labelled (ra rb : list Z) : list (list string) :=
  map (fun p => [(fmt3 (fst p) ++ "a.jpg")%string; (fmt3 (snd p) ++ "b.jpg")%string])
      (combine ra rb).

(** One trial type's rows of the stacked table. *)
Definition stacked_block (t : string) (sh : list (list string)) (bins : list Z)
  : list (list np_scalar) :=
  map (fun p => map NpStr (fst p) ++ [NpStr t; NpStr (Np.str (snd p))])
      (combine sh bins).

(** [s] ends with [suffix]. *)
Definition ends_with (suffix s : string) : bool :=
  (String.length suffix <=? String.length s)
  && String.eqb (substring (String.length s - String.length suffix)
                           (String.length suffix) s) suffix.

(** A file name stripped of its five-character variant suffix
    (["a.jpg"] or ["b.jpg"]). *)
Definition image_id (s : string) : string :=
  substring 0 (String.length s - 5) s.

Definition is_digit (c : ascii) : bool :=
  (48 <=? nat_of_ascii c) && (nat_of_ascii c <=? 57).

Fixpoint all_digits (s : string) : bool :=
  match s with
  | EmptyString => true
  | String c rest => is_digit c && all_digits rest
  end.

(** File names of the form [<3-digit-id><a|b>.jpg]. *)
Definition filename_form (s : string) : bool :=
  match s with
  | String d1 (String d2 (String d3 (String v ext))) =>
      is_digit d1 && is_digit d2 && is_digit d3
      && (Ascii.eqb v "a" || Ascii.eqb v "b")
      && String.eqb ext ".jpg"
  | _ => false
  end.

Definition digit_char (d : Z) : ascii := ascii_of_nat (48 + Z.to_nat d).

(** The decimal representation of [z] left-padded with zeros to [digits]
    characters, for [0 <= z < 10 ^ digits]. *)
Fixpoint zero_padded (digits : nat) (z : Z) : string :=
  match digits with
  | 0 => EmptyString
  | S k => (zero_padded k (z / 10) ++ String (digit_char (z mod 10)) EmptyString)%string
  end.

(** The two grid rows that each trial type pairs. *)
Definition pairing : list (string * nat * nat) :=
  [("A-A'", 0, 0); ("B-C'", 1, 2); ("D-X", 3, 4)]%string.

(** An image catalogue as the experiment uses it: one row per image, the
    identifiers being the numbers of the image files [000] .. [999]. *)
Definition valid_catalog (table : list (Z * Z)) : Prop :=
  NoDup (map fst table) /\ Forall (fun p => (0 <= fst p <= 999)%Z) table.


(** A test trial as the code returns it: four string cells, the last one
    the rendering of an integer label of the bin vector. *)
Definition row_of_strings (bins : list Z) (trial : list np_scalar) : Prop :=
  exists l r t b,
    trial = [NpStr l; NpStr r; NpStr t; NpStr (Np.str b)]
    /\ filename_form l = true /\ filename_form r = true
    /\ In t trial_types /\ In b bins
    /\ lure_bin_of trial = Some b.

(** A test trial whose last cell is an integer. *)
Definition int_lure_bin_tuple (trial : list np_scalar) : Prop :=
  exists l r t z,
    trial = [NpStr l; NpStr r; NpStr t; NpInt z]
    /\ filename_form l = true /\ filename_form r = true /\ In t trial_types.

(** The studied image of a trial, the file that ends in [a.jpg], wherever
    the left/right shuffle put it. *)
Definition target_of (trial : list np_scalar) : string :=
  if ends_with "a.jpg" (cell 0 trial) then cell 0 trial else cell 1 trial.

(** The other image of the trial. *)
Definition lure_of (trial : list np_scalar) : string :=
  if ends_with "a.jpg" (cell 0 trial) then cell 1 trial else cell 0 trial.

(** The report of a balanced design: the three trial types in order, each
    with every bin of the table (as text, in text order) and the same
    count [img_per_cond / nbins] for every bin. *)
Definition balanced_report (table : list (Z * Z)) (ipc : nat)
  : list (string * (list string * list nat)) :=
  let ub := NpText.unique (map Np.str (bins_unique table)) in
  map (fun t => (t, (ub, map (fun _ => ipc / length (bins_unique table)) ub)))
      trial_types.

(** The images that the table puts in bin [b], in file order. *)
Definition images_of_bin (table : list (Z * Z)) (b : Z) : list Z :=
  map fst (filter (fun p => (snd p =? b)%Z) table).

(** ** The law of the concrete random source *)

Module LcgFacts.

Lemma insert_at_perm (A : Type) (k : nat) (x : A) (l : list A) :
  Permutation (x :: l) (Lcg.insert_at k x l).
Proof.
  unfold Lcg.insert_at.
  rewrite <- (firstn_skipn k l) at 1.
  apply Permutation_middle.
Qed.

Lemma shuffle_perm (A : Type) (l : list A) (g : Z) :
  Permutation l (fst (Lcg.shuffle l g)).
Proof.
  induction l as [|x xs IH]; simpl.
  - constructor.
  - destruct (Lcg.shuffle xs g) as [ys g1] eqn:E; simpl in *.
    rewrite <- insert_at_perm. now constructor.
Qed.

End LcgFacts.

#[export] Instance lcg_source : RandomSource Z := {|
  np_random_permutation := @Lcg.shuffle;
  np_random_permutation_perm := LcgFacts.shuffle_perm
|}.

(** ** Runs on concrete catalogues *)

(** Five bins of five images, five conditions, five images per condition,
    generator seeded with 42. *)
Definition demo_table : list (Z * Z) := catalog 5 5.
Definition demo_seed : Z := 42.

Definition demo_grid : list (list Z) :=
  Eval vm_compute in
    match generate_matched_bins_imgs demo_table 5 5 demo_seed with
    | Ok (grid, _, _) => grid
    | Err _ => []
    end.

Definition demo_bins : list Z :=
  Eval vm_compute in
    match generate_matched_bins_imgs demo_table 5 5 demo_seed with
    | Ok (_, bins, _) => bins
    | Err _ => []
    end.

Definition demo_g1 : Z :=
  Eval vm_compute in
    match generate_matched_bins_imgs demo_table 5 5 demo_seed with
    | Ok (_, _, g) => g
    | Err _ => 0%Z
    end.

Definition demo_enc : list string :=
  Eval vm_compute in
    match generate_enc_trials demo_grid 5 demo_g1 with
    | Ok (enc, _) => enc
    | Err _ => []
    end.

Definition demo_g2 : Z :=
  Eval vm_compute in
    match generate_enc_trials demo_grid 5 demo_g1 with
    | Ok (_, g) => g
    | Err _ => 0%Z
    end.

Definition demo_tests : list (list np_scalar) :=
  Eval vm_compute in
    match generate_test_trials demo_grid demo_bins 5 demo_g2 with
    | Ok (tests, _) => tests
    | Err _ => []
    end.

Definition demo_g3 : Z :=
  Eval vm_compute in
    match generate_test_trials demo_grid demo_bins 5 demo_g2 with
    | Ok (_, g) => g
    | Err _ => 0%Z
    end.

(** Five bins of 35 images, 36 images per condition asked for. *)
Definition odd_grid : list (list Z) :=
  Eval vm_compute in
    match generate_matched_bins_imgs (catalog 5 35) 5 36 demo_seed with
    | Ok (grid, _, _) => grid
    | Err _ => []
    end.

Definition odd_bins : list Z :=
  Eval vm_compute in
    match generate_matched_bins_imgs (catalog 5 35) 5 36 demo_seed with
    | Ok (_, bins, _) => bins
    | Err _ => []
    end.

Definition odd_g1 : Z :=
  Eval vm_compute in
    match generate_matched_bins_imgs (catalog 5 35) 5 36 demo_seed with
    | Ok (_, _, g) => g
    | Err _ => 0%Z
    end.

(** Six bins of six images, six conditions, six images per condition. *)
Definition six_grid : list (list Z) :=
  Eval vm_compute in
    match generate_matched_bins_imgs (catalog 6 6) 6 6 demo_seed with
    | Ok (grid, _, _) => grid
    | Err _ => []
    end.

Definition six_bins : list Z :=
  Eval vm_compute in
    match generate_matched_bins_imgs (catalog 6 6) 6 6 demo_seed with
    | Ok (_, bins, _) => bins
    | Err _ => []
    end.

Definition six_g1 : Z :=
  Eval vm_compute in
    match generate_matched_bins_imgs (catalog 6 6) 6 6 demo_seed with
    | Ok (_, _, g) => g
    | Err _ => 0%Z
    end.

Definition six_enc : list string :=
  Eval vm_compute in
    match generate_enc_trials six_grid 6 six_g1 with
    | Ok (enc, _) => enc
    | Err _ => []
    end.

Definition six_g2 : Z :=
  Eval vm_compute in
    match generate_enc_trials six_grid 6 six_g1 with
    | Ok (_, g) => g
    | Err _ => 0%Z
    end.

(** * Facts about the monad and the primitives *)

Lemma bind_ok (G A B : Type) (m : M G A) (k : A -> M G B) (g : G) (r : B * G) :
  bind m k g = Ok r -> exists a g', m g = Ok (a, g') /\ k a g' = Ok r.
Proof.
  unfold bind. destruct (m g) as [[a g']|e]; [eauto | discriminate].
Qed.

Lemma lift_ok (G A : Type) (r : result A) (g : G) (a : A) (g' : G) :
  lift r g = Ok (a, g') -> r = Ok a /\ g' = g.
Proof.
  unfold lift. destruct r; [|discriminate]. intros E; inversion E; auto.
Qed.

Lemma ret_ok (G A : Type) (a b : A) (g g' : G) :
  ret a g = Ok (b, g') -> b = a /\ g' = g.
Proof. unfold ret. intros E; inversion E; auto. Qed.

Lemma permutation_ok (G : Type) `{RandomSource G} (A : Type) (l l' : list A) (g g' : G) :
  permutation l g = Ok (l', g') -> Permutation l l'.
Proof.
  unfold permutation. intros E. inversion E as [E'].
  pose proof (np_random_permutation_perm l g) as P. rewrite E' in P. exact P.
Qed.

Lemma permutation_returns (G : Type) `{RandomSource G} (A : Type) (l : list A) (g : G) :
  exists l' g', permutation l g = Ok (l', g') /\ Permutation l l'.
Proof.
  unfold permutation. destruct (np_random_permutation l g) as [l' g'] eqn:E.
  exists l', g'. split; [reflexivity|].
  pose proof (np_random_permutation_perm l g) as P. rewrite E in P. exact P.
Qed.

Ltac monad_inv H :=
  let a := fresh "a" in
  let g := fresh "g" in
  let H1 := fresh "Hm" in
  let H2 := fresh "Hk" in
  apply bind_ok in H; destruct H as (a & g & H1 & H2).

(** [np.unique] yields the strictly ascending list of the values present. *)

Lemma insert_unique_In (x y : Z) (l : list Z) :
  In y (Np.insert_unique x l) <-> y = x \/ In y l.
Proof.
  induction l as [|z zs IH]; simpl.
  - intuition.
  - destruct (Z.ltb_spec x z); [simpl; intuition|].
    destruct (Z.eqb_spec x z); simpl; [subst; intuition|].
    rewrite IH. intuition.
Qed.

Lemma unique_In (y : Z) (l : list Z) : In y (Np.unique l) <-> In y l.
Proof.
  induction l as [|x xs IH]; simpl; [tauto|].
  rewrite insert_unique_In, IH. intuition.
Qed.

Lemma insert_unique_sorted (x : Z) (l : list Z) :
  StronglySorted Z.lt l -> StronglySorted Z.lt (Np.insert_unique x l).
Proof.
  induction 1 as [|z zs S IH F]; simpl.
  - repeat constructor.
  - destruct (Z.ltb_spec x z).
    + constructor; [constructor; assumption|].
      constructor; [assumption|].
      eapply Forall_impl; [|exact F]. simpl. intros; lia.
    + destruct (Z.eqb_spec x z); [constructor; assumption|].
      constructor; [assumption|].
      rewrite Forall_forall in *. intros y Hy.
      apply insert_unique_In in Hy. destruct Hy as [->|Hy]; [lia|auto].
Qed.

Lemma unique_sorted (l : list Z) : StronglySorted Z.lt (Np.unique l).
Proof.
  induction l; simpl; [constructor | now apply insert_unique_sorted].
Qed.

Lemma sorted_lt_NoDup (l : list Z) : StronglySorted Z.lt l -> NoDup l.
Proof.
  induction 1 as [|z zs S IH F]; constructor; [|assumption].
  intros Hin. rewrite Forall_forall in F. specialize (F _ Hin). lia.
Qed.

Lemma unique_NoDup (l : list Z) : NoDup (Np.unique l).
Proof. apply sorted_lt_NoDup, unique_sorted. Qed.

Lemma combine_fst_snd (A B : Type) (t : list (A * B)) :
  combine (map fst t) (map snd t) = t.
Proof.
  induction t as [|[a b] t IH]; simpl; [reflexivity | now rewrite IH].
Qed.

Lemma select_table (table : list (Z * Z)) (b : Z) :
  Np.select (map fst table) (map snd table) b
  = map fst (filter (fun p => (snd p =? b)%Z) table).
Proof. unfold Np.select. now rewrite combine_fst_snd. Qed.

Lemma select_length (table : list (Z * Z)) (b : Z) :
  length (Np.select (map fst table) (map snd table) b) = count_bin table b.
Proof. rewrite select_table, length_map. reflexivity. Qed.

Lemma select_In (table : list (Z * Z)) (b x : Z) :
  In x (Np.select (map fst table) (map snd table) b) <-> In (x, b) table.
Proof.
  rewrite select_table, in_map_iff. split.
  - intros ([y c] & E & Hin). simpl in E. subst y.
    apply filter_In in Hin. destruct Hin as [Hin Hb]. simpl in Hb.
    apply Z.eqb_eq in Hb. now subst.
  - intros Hin. exists (x, b). split; [reflexivity|].
    apply filter_In. split; [assumption | simpl; apply Z.eqb_refl].
Qed.

Lemma loadtxt_columns_ok (table : list (Z * Z)) (imgs bins : list Z) :
  Np.loadtxt_columns table = Ok (imgs, bins) ->
  2 <= length table /\ imgs = map fst table /\ bins = map snd table.
Proof.
  destruct table as [|p [|q t]]; simpl; try discriminate.
  intros E; inversion E. repeat split; lia.
Qed.

Lemma loadtxt_columns_returns (table : list (Z * Z)) :
  2 <= length table ->
  Np.loadtxt_columns table = Ok (map fst table, map snd table).
Proof.
  destruct table as [|p [|q t]]; simpl; intros; try lia. reflexivity.
Qed.

(** * The stratifier *)

Section StratifierFacts.

Context {G : Type} `{RandomSource G}.

Lemma reshape_ok (A : Type) (l : list A) (rows cols : nat) (blk : list (list A)) :
  Np.reshape l rows cols = Ok blk ->
  length l = rows * cols /\ blk = Np.chunks rows cols l.
Proof.
  unfold Np.reshape. destruct (Nat.eqb_spec (length l) (rows * cols)); [|discriminate].
  intros E; inversion E; auto.
Qed.

(** The loop goes through exactly when every remaining bin supplies
    [num_cond * imgs_per_bin] images after truncation. *)
Lemma fill_bins_returns_iff (imgs bins : list Z) (nc ipc ipb : nat)
      (todo : list (nat * Z)) (arr : list (list Z)) (g : G) :
  returns (fill_bins imgs bins nc ipc ipb todo arr) g
  <-> Forall (fun cb => Nat.min ipc (length (Np.select imgs bins (snd cb))) = nc * ipb)
             todo.
Proof.
  revert arr g. induction todo as [|[c b] rest IH]; intros arr g; simpl.
  - split; [constructor | intros _; eexists; reflexivity].
  - unfold returns, bind.
    destruct (permutation_returns (Np.select imgs bins b) g) as (sh & g1 & E & P).
    rewrite E. unfold lift at 1, Np.reshape.
    rewrite length_firstn, <- (Permutation_length P).
    destruct (Nat.eqb_spec (Nat.min ipc (length (Np.select imgs bins b))) (nc * ipb)) as [Eq|Ne].
    + split.
      * intros Hr. constructor; [exact Eq|]. eapply IH. exact Hr.
      * intros F. inversion F; subst. apply IH. assumption.
    + split.
      * intros [r Hr]. discriminate.
      * intros F. inversion F; subst. simpl in *. contradiction.
Qed.

Lemma fill_bins_error (imgs bins : list Z) (nc ipc ipb : nat)
      (todo : list (nat * Z)) (arr : list (list Z)) (g : G) (e : np_error) :
  fill_bins imgs bins nc ipc ipb todo arr g = Err e -> e = ValueError.
Proof.
  revert arr g. induction todo as [|[c b] rest IH]; intros arr g; simpl.
  - discriminate.
  - unfold bind.
    destruct (permutation_returns (Np.select imgs bins b) g) as (sh & g1 & E & P).
    rewrite E. unfold lift at 1, Np.reshape.
    destruct (length (firstn ipc sh) =? nc * ipb).
    + apply IH.
    + intros E'; inversion E'; reflexivity.
Qed.

End StratifierFacts.

(** ** Shape of the grid built by the loop *)

Lemma skipn_repeat (A : Type) (x : A) (k n : nat) :
  skipn k (repeat x n) = repeat x (n - k).
Proof.
  revert n. induction k as [|k IH]; intros [|n]; simpl; auto.
Qed.

Lemma chunks_length (A : Type) (r c : nat) (l : list A) :
  length (Np.chunks r c l) = r.
Proof. revert l. induction r; intros; simpl; auto. Qed.

Lemma chunks_rows (A : Type) (r c : nat) (l : list A) :
  length l = r * c -> Forall (fun row => length row = c) (Np.chunks r c l).
Proof.
  revert l. induction r as [|r IH]; intros l E; simpl; constructor.
  - rewrite length_firstn. simpl in E. lia.
  - apply IH. rewrite length_skipn. simpl in E. lia.
Qed.

Lemma concat_chunks (A : Type) (r c : nat) (l : list A) :
  length l = r * c -> concat (Np.chunks r c l) = l.
Proof.
  revert l. induction r as [|r IH]; intros l E; simpl.
  - destruct l; [reflexivity | discriminate].
  - rewrite IH; [apply firstn_skipn|].
    rewrite length_skipn. simpl in E. lia.
Qed.

Lemma happend_length (A : Type) (a b : list (list A)) :
  length a = length b -> length (happend a b) = length a.
Proof.
  intros E. unfold happend. rewrite length_map, length_combine. lia.
Qed.

Lemma happend_rows (A : Type) (a b : list (list A)) (m n : nat) :
  Forall (fun r => length r = m) a ->
  Forall (fun r => length r = n) b ->
  Forall (fun r => length r = m + n) (happend a b).
Proof.
  intros Fa. revert b. induction Fa as [|x a Hx Fa IH]; intros b Fb; simpl.
  - constructor.
  - destruct Fb as [|y b Hy Fb]; simpl; constructor.
    + rewrite length_app. simpl. lia.
    + apply IH. assumption.
Qed.

Lemma happend_nth (A : Type) (a b : list (list A)) (i : nat) :
  length a = length b ->
  nth i (happend a b) [] = nth i a [] ++ nth i b [].
Proof.
  revert b i. induction a as [|x a IH]; intros [|y b] i E; simpl in *;
    try discriminate.
  - destruct i; reflexivity.
  - destruct i; [reflexivity|]. apply IH. lia.
Qed.

Lemma happend_concat (A : Type) (a b : list (list A)) :
  length a = length b ->
  Permutation (concat (happend a b)) (concat a ++ concat b).
Proof.
  revert b. induction a as [|x a IH]; intros [|y b] E; simpl in *;
    try discriminate.
  - constructor.
  - rewrite (IH b) by lia. rewrite <- !app_assoc.
    apply Permutation_app_head.
    rewrite !app_assoc. apply Permutation_app_tail, Permutation_app_comm.
Qed.

Lemma zeros_length (rows cols : nat) : length (Np.zeros rows cols) = rows.
Proof. apply repeat_length. Qed.

Lemma zeros_rows (rows cols : nat) :
  Forall (fun r => length r = cols) (Np.zeros rows cols).
Proof.
  unfold Np.zeros. apply Forall_forall. intros r Hr.
  apply repeat_spec in Hr. subst. apply repeat_length.
Qed.

Lemma zeros_nth (rows cols i : nat) :
  i < rows -> nth i (Np.zeros rows cols) [] = repeat 0%Z cols.
Proof.
  intros Hi. unfold Np.zeros. apply nth_repeat_lt. exact Hi.
Qed.

Lemma assign_row (l b : list Z) (lo ipc : nat) :
  length l = lo ->
  firstn lo (l ++ repeat 0%Z (ipc - lo)) ++ b
    ++ skipn (length b + lo) (l ++ repeat 0%Z (ipc - lo))
  = (l ++ b) ++ repeat 0%Z (ipc - (lo + length b)).
Proof.
  intros E.
  rewrite firstn_app, E, Nat.sub_diag, firstn_O, app_nil_r.
  rewrite <- E at 1. rewrite firstn_all.
  rewrite skipn_app, E.
  rewrite skipn_all2 by lia. simpl.
  replace (length b + lo - lo) with (length b) by lia.
  rewrite skipn_repeat, <- app_assoc.
  do 3 f_equal. lia.
Qed.

Lemma assign_columns_happend (left blk : list (list Z)) (nc lo w ipc : nat) :
  length left = nc ->
  Forall (fun r => length r = lo) left ->
  length blk = nc ->
  Forall (fun r => length r = w) blk ->
  Np.assign_columns (happend left (Np.zeros nc (ipc - lo))) lo (w + lo) blk
  = happend (happend left blk) (Np.zeros nc (ipc - (lo + w))).
Proof.
  revert blk nc. induction left as [|l left IH]; intros blk nc El Fl Eb Fb.
  - simpl in El. subst nc. destruct blk; [reflexivity | discriminate].
  - destruct nc as [|nc]; [discriminate|].
    destruct blk as [|b blk]; [discriminate|].
    inversion Fl; subst. inversion Fb; subst.
    simpl in El, Eb.
    unfold Np.assign_columns, happend in *. simpl.
    f_equal.
    + apply assign_row. reflexivity.
    + apply IH; auto.
Qed.

Lemma happend_nil_rows (A : Type) (a : list (list A)) (n : nat) :
  length a = n -> happend (repeat [] n) a = a.
Proof.
  revert n. induction a as [|x a IH]; intros [|n] E; simpl in *;
    try discriminate; try reflexivity.
  unfold happend in *. simpl. f_equal. apply IH. lia.
Qed.

Lemma fold_happend_length (A : Type) (blks : list (list (list A))) (left : list (list A)) :
  Forall (fun blk => length blk = length left) blks ->
  length (fold_left happend blks left) = length left.
Proof.
  revert left. induction blks as [|blk blks IH]; intros left F; simpl.
  - reflexivity.
  - inversion F as [|? ? E F']; subst.
    rewrite IH; rewrite happend_length by auto; auto.
Qed.

Lemma fold_happend_nth (A : Type) (blks : list (list (list A)))
      (left : list (list A)) (i : nat) :
  Forall (fun blk => length blk = length left) blks ->
  nth i (fold_left happend blks left) [] = nth i left [] ++ concat (hrow i blks).
Proof.
  revert left. induction blks as [|blk blks IH]; intros left F; simpl.
  - now rewrite app_nil_r.
  - inversion F as [|? ? E F']; subst.
    rewrite IH by (rewrite happend_length; auto).
    rewrite happend_nth by auto. now rewrite app_assoc.
Qed.

Lemma fold_happend_concat (A : Type) (blks : list (list (list A)))
      (left : list (list A)) :
  Forall (fun blk => length blk = length left) blks ->
  Permutation (concat (fold_left happend blks left))
              (concat left ++ concat (map (@concat A) blks)).
Proof.
  revert left. induction blks as [|blk blks IH]; intros left F; simpl.
  - now rewrite app_nil_r.
  - inversion F as [|? ? E F']; subst.
    rewrite IH by (rewrite happend_length; auto).
    rewrite happend_concat by auto. now rewrite app_assoc.
Qed.

Section StratifierShape.

Context {G : Type} `{RandomSource G}.

Lemma fill_bins_struct (imgs bins : list Z) (nc ipc ipb : nat) (bs : list Z) :
  forall (c : nat) (left : list (list Z)) (g : G) (arr' : list (list Z)) (g' : G),
    length left = nc ->
    Forall (fun r => length r = c * ipb) left ->
    (c + length bs) * ipb <= ipc ->
    fill_bins imgs bins nc ipc ipb (combine (seq c (length bs)) bs)
              (happend left (Np.zeros nc (ipc - c * ipb))) g = Ok (arr', g') ->
    exists blks,
      Forall2 (block_of imgs bins nc ipc ipb) bs blks
      /\ arr' = happend (fold_left happend blks left)
                        (Np.zeros nc (ipc - (c + length bs) * ipb)).
Proof.
  induction bs as [|b bs IH]; intros c left g arr' g' El Fl Hle Hrun.
  - simpl in Hrun. apply ret_ok in Hrun. destruct Hrun as [-> _].
    exists []. split; [constructor|]. simpl. now rewrite Nat.add_0_r.
  - simpl in Hrun. monad_inv Hrun.
    apply permutation_ok in Hm.
    monad_inv Hk. apply lift_ok in Hm0. destruct Hm0 as [Hre ->].
    apply reshape_ok in Hre. destruct Hre as [Elen ->].
    rewrite (@assign_columns_happend left _ nc (c * ipb) ipb ipc) in Hk0;
      auto using chunks_length, chunks_rows.
    replace (c * ipb + ipb) with (S c * ipb) in Hk0 by lia.
    apply IH in Hk0.
    + destruct Hk0 as (blks & F2 & ->).
      exists (Np.chunks nc ipb (firstn ipc a) :: blks). split.
      * constructor; [|assumption]. exists a. auto.
      * simpl. do 3 f_equal. lia.
    + rewrite happend_length; rewrite ?chunks_length; auto.
    + replace (S c * ipb) with (c * ipb + ipb) by lia.
      apply happend_rows; auto using chunks_rows.
    + simpl in Hle. lia.
Qed.

(** What [generate_matched_bins_imgs] returns, when it returns: one block
    per distinct bin label in ascending order, side by side, followed by
    the columns that no block covers, still zero. *)
Lemma stratify_struct (table : list (Z * Z)) (nc ipc : nat) (g g' : G)
      (grid : list (list Z)) (lure_bins : list Z) :
  generate_matched_bins_imgs table nc ipc g = Ok (grid, lure_bins, g') ->
  let bu := bins_unique table in
  let ipb := ipc / length bu in
  2 <= length table
  /\ lure_bins = Np.repeat_each bu ipb
  /\ exists blks,
      Forall2 (block_of (map fst table) (map snd table) nc ipc ipb) bu blks
      /\ grid = happend (fold_left happend blks (repeat [] nc))
                        (Np.zeros nc (ipc - length bu * ipb)).
Proof.
  intros Hrun bu ipb. unfold generate_matched_bins_imgs in Hrun.
  monad_inv Hrun. destruct a as [imgs bins].
  apply lift_ok in Hm. destruct Hm as [Hload ->].
  apply loadtxt_columns_ok in Hload. destruct Hload as (Hlen & -> & ->).
  monad_inv Hk. apply ret_ok in Hk0. destruct Hk0 as [E _].
  inversion E; subst grid lure_bins. clear E.
  fold (bins_unique table) in Hm. fold bu in Hm. fold ipb in Hm.
  unfold Np.enumerate in Hm.
  rewrite <- (@happend_nil_rows _ (Np.zeros nc ipc) nc) in Hm
    by apply zeros_length.
  replace ipc with (ipc - 0 * ipb) in Hm at 2 by lia.
  apply fill_bins_struct in Hm.
  - destruct Hm as (blks & F2 & ->). repeat split; auto.
    exists blks. split; [assumption|]. reflexivity.
  - apply repeat_length.
  - apply Forall_forall. intros r Hr. apply repeat_spec in Hr. now subst.
  - simpl. unfold ipb. apply Nat.Div0.mul_div_le.
Qed.

End StratifierShape.

(** ** Contents of the blocks *)

Lemma chunks_incl (A : Type) (r c : nat) (l row : list A) :
  length l = r * c -> In row (Np.chunks r c l) -> incl row l.
Proof.
  intros E Hrow x Hx. rewrite <- (concat_chunks r c l E).
  apply in_concat. eauto.
Qed.

Lemma In_firstn (A : Type) (n : nat) (l : list A) (x : A) :
  In x (firstn n l) -> In x l.
Proof.
  intros Hx. rewrite <- (firstn_skipn n l). apply in_or_app. now left.
Qed.

Lemma nth_In_or_nil (A : Type) (l : list (list A)) (i : nat) :
  In (nth i l []) l \/ nth i l [] = [].
Proof.
  destruct (Nat.lt_ge_cases i (length l)) as [Hlt|Hge].
  - left. now apply nth_In.
  - right. now apply nth_overflow.
Qed.

Section BlockFacts.

Variables (imgs bins : list Z) (nc ipc ipb : nat) (b : Z) (blk : list (list Z)).
Hypothesis Hblk : block_of imgs bins nc ipc ipb b blk.

Lemma block_length : length blk = nc.
Proof. destruct Hblk as (sh & _ & _ & ->). apply chunks_length. Qed.

Lemma block_rows : Forall (fun r => length r = ipb) blk.
Proof. destruct Hblk as (sh & _ & E & ->). now apply chunks_rows. Qed.

Lemma block_row_length (i : nat) : i < nc -> length (nth i blk []) = ipb.
Proof.
  intros Hi. pose proof block_rows as F. rewrite Forall_forall in F.
  apply F, nth_In. now rewrite block_length.
Qed.

Lemma block_cells (i : nat) (x : Z) :
  In x (nth i blk []) -> In x (Np.select imgs bins b).
Proof.
  destruct Hblk as (sh & P & E & ->). intros Hx.
  destruct (nth_In_or_nil (Np.chunks nc ipb (firstn ipc sh)) i) as [Hin|Hnil].
  - apply (Permutation_in _ (Permutation_sym P)).
    eapply In_firstn. eapply chunks_incl; eauto.
  - rewrite Hnil in Hx. destruct Hx.
Qed.

Lemma block_concat :
  exists sh, Permutation (Np.select imgs bins b) sh /\ concat blk = firstn ipc sh.
Proof.
  destruct Hblk as (sh & P & E & ->). exists sh. split; [assumption|].
  now apply concat_chunks.
Qed.

End BlockFacts.

Lemma blocks_length (imgs bins : list Z) (nc ipc ipb : nat)
      (bs : list Z) (blks : list (list (list Z))) :
  Forall2 (block_of imgs bins nc ipc ipb) bs blks ->
  Forall (fun blk => length blk = nc) blks.
Proof.
  induction 1; constructor; eauto using block_length.
Qed.

Lemma hrow_segments (table : list (Z * Z)) (nc ipc ipb i : nat)
      (bs : list Z) (blks : list (list (list Z))) :
  i < nc ->
  Forall2 (block_of (map fst table) (map snd table) nc ipc ipb) bs blks ->
  Forall2 (fun bin seg =>
             length seg = ipb /\ Forall (fun x => In (x, bin) table) seg)
          bs (hrow i blks).
Proof.
  intros Hi. induction 1 as [|b blk bs blks Hb F IH]; simpl; constructor; auto.
  split.
  - eapply block_row_length; eauto.
  - apply Forall_forall. intros x Hx. apply select_In.
    eapply block_cells; eauto.
Qed.

Lemma segments_length (table : list (Z * Z)) (ipb : nat)
      (bs : list Z) (segs : list (list Z)) :
  Forall2 (fun bin seg =>
             length seg = ipb /\ Forall (fun x => In (x, bin) table) seg)
          bs segs ->
  length (concat segs) = length bs * ipb.
Proof.
  induction 1 as [|b s bs segs [E _] F IH]; simpl; [reflexivity|].
  rewrite length_app, IH, E. reflexivity.
Qed.

Section GridFacts.

Context {G : Type} `{RandomSource G}.

Variables (table : list (Z * Z)) (nc ipc : nat) (g g' : G).
Variables (grid : list (list Z)) (lure_bins : list Z).
Hypothesis Hrun :
  generate_matched_bins_imgs table nc ipc g = Ok (grid, lure_bins, g').

Let bu := bins_unique table.
Let ipb := ipc / length bu.

Lemma grid_length : length grid = nc.
Proof.
  destruct (stratify_struct _ _ _ _ Hrun) as (_ & _ & blks & F2 & ->).
  apply blocks_length in F2.
  rewrite happend_length; rewrite fold_happend_length;
    rewrite ?repeat_length, ?zeros_length; auto.
Qed.

Lemma grid_row (i : nat) :
  i < nc ->
  exists segs,
    nth i grid [] = concat segs ++ repeat 0%Z (ipc - length bu * ipb)
    /\ Forall2 (fun bin seg =>
                  length seg = ipb /\ Forall (fun x => In (x, bin) table) seg)
               bu segs.
Proof.
  intros Hi.
  destruct (stratify_struct _ _ _ _ Hrun) as (_ & _ & blks & F2 & ->).
  exists (hrow i blks). split.
  - pose proof (@blocks_length _ _ nc ipc _ _ _ F2) as Fl.
    rewrite happend_nth, fold_happend_nth.
    + rewrite zeros_nth by assumption.
      rewrite nth_repeat. reflexivity.
    + now rewrite repeat_length.
    + rewrite fold_happend_length; rewrite ?repeat_length, ?zeros_length; auto.
  - eapply hrow_segments; eauto.
Qed.

Lemma grid_row_In (row : list Z) :
  In row grid ->
  exists segs,
    row = concat segs ++ repeat 0%Z (ipc - length bu * ipb)
    /\ Forall2 (fun bin seg =>
                  length seg = ipb /\ Forall (fun x => In (x, bin) table) seg)
               bu segs.
Proof.
  intros Hin. apply (In_nth _ _ []) in Hin. destruct Hin as (i & Hi & <-).
  apply grid_row. now rewrite <- grid_length.
Qed.

Lemma grid_rows_length : Forall (fun r => length r = ipc) grid.
Proof.
  apply Forall_forall. intros row Hin.
  destruct (grid_row_In _ Hin) as (segs & -> & F2).
  rewrite length_app, repeat_length, (@segments_length _ _ _ _ F2).
  pose proof (Nat.Div0.mul_div_le ipc (length bu)). fold ipb in H0. lia.
Qed.

Lemma lure_bins_eq : lure_bins = Np.repeat_each bu ipb.
Proof. now destruct (stratify_struct _ _ _ _ Hrun) as (_ & -> & _). Qed.

Lemma table_length : 2 <= length table.
Proof. now destruct (stratify_struct _ _ _ _ Hrun) as (? & _). Qed.

End GridFacts.

Lemma repeat_each_length (A : Type) (l : list A) (n : nat) :
  length (Np.repeat_each l n) = length l * n.
Proof.
  unfold Np.repeat_each. induction l as [|x l IH]; simpl; [reflexivity|].
  rewrite length_app, repeat_length, IH. reflexivity.
Qed.

(** ** When the stratifier returns *)

Lemma returns_or_fails (G A : Type) (m : M G A) (g : G) :
  returns m g \/ fails m g.
Proof.
  unfold returns, fails. destruct (m g) as [r|e]; eauto.
Qed.

Lemma fails_not_returns (G A : Type) (m : M G A) (g : G) :
  fails m g <-> ~ returns m g.
Proof.
  unfold returns, fails. destruct (m g) as [r|e]; split.
  - intros [e E]. discriminate.
  - intros N. exfalso. apply N. eauto.
  - intros _ [r E]. discriminate.
  - eauto.
Qed.

Lemma Forall_enumerate (A : Type) (P : A -> Prop) (l : list A) (c : nat) :
  Forall (fun cb => P (snd cb)) (combine (seq c (length l)) l) <-> Forall P l.
Proof.
  revert c. induction l as [|x l IH]; intros c; simpl.
  - split; constructor.
  - split; intros F; inversion F; subst; constructor; auto.
    + now apply (IH (S c)).
    + now apply IH.
Qed.

Lemma bins_unique_nonempty (table : list (Z * Z)) :
  1 <= length table -> 1 <= length (bins_unique table).
Proof.
  destruct table as [|[x b] t]; simpl; [lia|]. intros _.
  assert (Hin : In b (bins_unique ((x, b) :: t))).
  { apply unique_In. now left. }
  destruct (bins_unique ((x, b) :: t)); [destruct Hin | simpl; lia].
Qed.

Section StratifierReturns.

Context {G : Type} `{RandomSource G}.

Lemma stratify_returns_iff (table : list (Z * Z)) (nc ipc : nat) (g : G) :
  returns (generate_matched_bins_imgs table nc ipc) g
  <-> 2 <= length table
      /\ Forall (fun b => Nat.min ipc (count_bin table b)
                          = nc * (ipc / length (bins_unique table)))
                (bins_unique table).
Proof.
  unfold generate_matched_bins_imgs.
  destruct (le_lt_dec 2 (length table)) as [Hlen|Hlen].
  - unfold returns, bind at 1. unfold lift.
    rewrite (loadtxt_columns_returns table Hlen).
    fold (bins_unique table).
    set (bu := bins_unique table). set (ipb := ipc / length bu).
    pose proof (fill_bins_returns_iff (map fst table) (map snd table) nc ipc ipb
                  (Np.enumerate bu) (Np.zeros nc ipc) g) as R.
    unfold Np.enumerate in R.
    rewrite (Forall_enumerate
               (fun b => Nat.min ipc
                           (length (Np.select (map fst table) (map snd table) b))
                         = nc * ipb)) in R.
    assert (Q : Forall (fun b => Nat.min ipc
                           (length (Np.select (map fst table) (map snd table) b))
                         = nc * ipb) bu
                <-> Forall (fun b => Nat.min ipc (count_bin table b) = nc * ipb) bu).
    { rewrite !Forall_forall. split; intros F b Hb; specialize (F b Hb);
        now rewrite select_length in *. }
    rewrite Q in R. clear Q. unfold returns in R. unfold bind.
    unfold Np.enumerate.
    destruct (fill_bins (map fst table) (map snd table) nc ipc ipb
                        (combine (seq 0 (length bu)) bu) (Np.zeros nc ipc) g)
      as [[arr g1]|e].
    + split.
      * intros _. split; [assumption|]. apply R. eauto.
      * intros _. unfold ret. eauto.
    + split.
      * intros [r E]. discriminate.
      * intros [_ F]. apply R in F. destruct F as [r E]. discriminate.
  - split.
    + intros [r E]. unfold bind, lift in E.
      destruct table as [|p [|q t]]; simpl in *; try discriminate; lia.
    + intros [Hge _]. lia.
Qed.

Lemma stratify_error (table : list (Z * Z)) (nc ipc : nat) (g : G) (e : np_error) :
  generate_matched_bins_imgs table nc ipc g = Err e ->
  (length table < 2 /\ e = IndexError) \/ (2 <= length table /\ e = ValueError).
Proof.
  unfold generate_matched_bins_imgs, bind at 1. unfold lift.
  destruct table as [|p [|q t]].
  - simpl. intros E; inversion E. left; split; [lia | reflexivity].
  - simpl. intros E; inversion E. left; split; [simpl; lia | reflexivity].
  - cbn [Np.loadtxt_columns]. unfold bind.
    match goal with
    | |- context [fill_bins ?a ?b ?c ?d ?e0 ?f ?z g] =>
        destruct (fill_bins a b c d e0 f z g) as [[arr g1]|e1] eqn:E1
    end.
    + unfold ret. discriminate.
    + intros E; inversion E; subst. apply fill_bins_error in E1.
      right. split; [simpl; lia | assumption].
Qed.

End StratifierReturns.

Section StratifierClaims.

Context {G : Type} `{RandomSource G}.

Lemma grid_trailing_zeros (table : list (Z * Z)) (nc ipc : nat) (g g' : G)
      (grid : list (list Z)) (lure_bins : list Z) (row : list Z) :
  generate_matched_bins_imgs table nc ipc g = Ok (grid, lure_bins, g') ->
  In row grid ->
  let nb := length (bins_unique table) in
  skipn (nb * (ipc / nb)) row = repeat 0%Z (ipc - nb * (ipc / nb)).
Proof.
  intros Hrun Hin nb.
  destruct (grid_row_In _ _ _ _ Hrun _ Hin) as (segs & -> & F2).
  pose proof (@segments_length _ _ _ _ F2) as L. fold nb in L.
  rewrite skipn_app, L, Nat.sub_diag. simpl.
  rewrite skipn_all2 by lia. reflexivity.
Qed.

Lemma catalog_5x35_shape_ok :
  Forall (fun b => Nat.min 36 (count_bin (catalog 5 35) b)
                   = 5 * (36 / length (bins_unique (catalog 5 35))))
         (bins_unique (catalog 5 35)).
Proof.
  apply Forall_forall. intros b Hb. vm_compute in Hb.
  repeat (destruct Hb as [<-|Hb]; [vm_compute; reflexivity|]). destruct Hb.
Qed.

(** C10.  Whenever the stratifier returns, the bin vector has
    [nbins * floor(img_per_cond / nbins)] entries; if [img_per_cond] is not a
    multiple of the number of distinct bins this is strictly less than
    [img_per_cond], while every grid row still has [img_per_cond] columns,
    the trailing ones keeping the zeros of [np.zeros]. *)
Theorem bin_vector_length_and_trailing_zeros
        (table : list (Z * Z)) (nc ipc : nat) (g g' : G)
        (grid : list (list Z)) (lure_bins : list Z) :
  generate_matched_bins_imgs table nc ipc g = Ok (grid, lure_bins, g') ->
  let nb := length (bins_unique table) in
  let covered := nb * (ipc / nb) in
  length lure_bins = covered
  /\ (ipc mod nb <> 0 -> covered < ipc)
  /\ Forall (fun row => length row = ipc
                        /\ skipn covered row = repeat 0%Z (ipc - covered)) grid.
Proof.
  intros Hrun nb covered. repeat split.
  - rewrite (lure_bins_eq _ _ _ _ Hrun), repeat_each_length. reflexivity.
  - intros Hmod. pose proof (Nat.div_mod_eq ipc nb). unfold covered. lia.
  - apply Forall_forall. intros row Hin. split.
    + pose proof (grid_rows_length _ _ _ _ Hrun) as F. rewrite Forall_forall in F. auto.
    + eapply grid_trailing_zeros; eauto.
Qed.

(** C2, as the code has it.  The stratifier validates nothing: it fails
    exactly when the table has fewer than two rows or when, for some bin,
    the number of images kept after truncation, [min img_per_cond count],
    differs from [num_cond * floor(img_per_cond / nbins)], the size the
    reshape asks for.  With [img_per_cond = 36], [num_cond = 5] and five
    bins of 35 images it returns: a 5 x 36 grid whose last column is zero
    and a bin vector of 35 labels. *)
Theorem stratify_fails_exactly_on_shape_mismatch :
  (forall (table : list (Z * Z)) (nc ipc : nat) (g : G),
      fails (generate_matched_bins_imgs table nc ipc) g
      <-> (length table < 2
           \/ exists b, In b (bins_unique table)
                        /\ Nat.min ipc (count_bin table b)
                           <> nc * (ipc / length (bins_unique table))))
  /\ (forall (table : list (Z * Z)) (nc ipc : nat) (g : G) (e : np_error),
         generate_matched_bins_imgs table nc ipc g = Err e ->
         (length table < 2 /\ e = IndexError)
         \/ (2 <= length table /\ e = ValueError))
  /\ (forall g : G,
         exists grid lure_bins g',
           generate_matched_bins_imgs (catalog 5 35) 5 36 g
           = Ok (grid, lure_bins, g')
           /\ length grid = 5
           /\ length lure_bins = 35
           /\ Forall (fun row => length row = 36 /\ nth 35 row 1%Z = 0%Z) grid).
Proof.
  split; [|split].
  - intros table nc ipc g.
    rewrite fails_not_returns, stratify_returns_iff. split.
    + intros N. destruct (le_lt_dec 2 (length table)) as [Hlen|Hlen]; [|now left].
      right.
      assert (D : forall b, {Nat.min ipc (count_bin table b)
                             = nc * (ipc / length (bins_unique table))}
                            + {~ Nat.min ipc (count_bin table b)
                                 = nc * (ipc / length (bins_unique table))}).
      { intros b. apply Nat.eq_dec. }
      destruct (Forall_Exists_dec _ D (bins_unique table)) as [F|E].
      * exfalso. apply N. split; assumption.
      * apply Exists_exists in E. exact E.
    + intros [Hlen|(b & Hb & Hne)] [Hge F]; [lia|].
      rewrite Forall_forall in F. apply Hne, F, Hb.
  - intros table nc ipc g e. apply stratify_error.
  - intros g.
    assert (R : returns (generate_matched_bins_imgs (catalog 5 35) 5 36) g).
    { apply stratify_returns_iff. split.
      - vm_compute. lia.
      - apply catalog_5x35_shape_ok. }
    destruct R as [[[grid lb] g'] E].
    exists grid, lb, g'. split; [exact E|]. split; [|split].
    + apply (grid_length _ _ _ _ E).
    + rewrite (lure_bins_eq _ _ _ _ E), repeat_each_length. reflexivity.
    + apply Forall_forall. intros row Hin. split.
      * pose proof (grid_rows_length _ _ _ _ E) as F. rewrite Forall_forall in F. auto.
      * pose proof (grid_trailing_zeros _ _ _ _ _ E Hin) as T.
        change (skipn 35 row = [0%Z]) in T.
        rewrite <- (firstn_skipn 35 row), T.
        pose proof (grid_rows_length _ _ _ _ E) as F. rewrite Forall_forall in F.
        specialize (F _ Hin).
        rewrite app_nth2; rewrite length_firstn; [|lia].
        replace (35 - Nat.min 35 (length row)) with 0 by lia. reflexivity.
Qed.

End StratifierClaims.

(** * The test-trial builder *)

Lemma labelled_eq (ra rb : list Z) :
  map (fun r => Np.char_add_row r ["a.jpg"; "b.jpg"]%string)
      (map (fun r => make_three_digits r 3) (Np.column_stack2 ra rb))
  = labelled ra rb.
Proof.
  unfold labelled, Np.column_stack2. rewrite !map_map. reflexivity.
Qed.

Lemma labelled_length (ra rb : list Z) :
  length (labelled ra rb) = Nat.min (length ra) (length rb).
Proof. unfold labelled. now rewrite length_map, length_combine. Qed.

Lemma combine_app (A B : Type) (a a' : list A) (b b' : list B) :
  length a = length b ->
  combine (a ++ a') (b ++ b') = combine a b ++ combine a' b'.
Proof.
  revert b. induction a as [|x a IH]; intros [|y b] E; simpl in *;
    try discriminate; [reflexivity|].
  f_equal. apply IH. lia.
Qed.

Lemma combine_repeat_r (A B : Type) (a : list A) (y : B) :
  combine a (repeat y (length a)) = map (fun x => (x, y)) a.
Proof. induction a; simpl; [reflexivity | now f_equal]. Qed.

Lemma row_ok (arr : list (list Z)) (i : nat) (r : list Z) :
  Np.row arr i = Ok r -> nth_error arr i = Some r.
Proof.
  unfold Np.row. destruct (nth_error arr i); [|discriminate].
  intros E; now inversion E.
Qed.

Lemma column_stack3_ok (trials : list (list string)) (tt : list string)
      (lb : list Z) (stacked : list (list np_scalar)) :
  np_column_stack3 trials tt lb = Ok stacked ->
  length trials = length tt /\ length tt = length lb
  /\ stacked = map (fun x => map NpStr (fst (fst x))
                               ++ [NpStr (snd (fst x)); NpStr (Np.str (snd x))])
                   (combine (combine trials tt) lb).
Proof.
  unfold np_column_stack3.
  destruct (Nat.eqb_spec (length trials) (length tt)); [|discriminate].
  destruct (Nat.eqb_spec (length tt) (length lb)); [|discriminate].
  simpl. intros E; inversion E. auto.
Qed.

Lemma stacked_block_eq (t : string) (sh : list (list string)) (bins : list Z) :
  length sh = length bins ->
  map (fun x => map NpStr (fst (fst x))
                  ++ [NpStr (snd (fst x)); NpStr (Np.str (snd x))])
      (combine (combine sh (repeat t (length bins))) bins)
  = stacked_block t sh bins.
Proof.
  intros E. rewrite <- E, combine_repeat_r. unfold stacked_block.
  clear E. revert bins. induction sh as [|p sh IH]; intros [|b bins]; simpl;
    try reflexivity.
  f_equal. apply IH.
Qed.

Section TestTrialFacts.

Context {G : Type} `{RandomSource G}.

Lemma mapM_permutation_ok (A : Type) (l l' : list (list A)) (g g' : G) :
  mapM (fun r => permutation r) l g = Ok (l', g') ->
  Forall2 (@Permutation A) l l'.
Proof.
  revert l' g. induction l as [|x l IH]; intros l' g E; simpl in E.
  - apply ret_ok in E. destruct E as [-> _]. constructor.
  - monad_inv E. apply permutation_ok in Hm.
    monad_inv Hk. apply ret_ok in Hk0. destruct Hk0 as [-> ->].
    constructor; eauto.
Qed.

Lemma mapM_permutation_returns (A : Type) (l : list (list A)) (g : G) :
  returns (mapM (fun r => permutation r) l) g.
Proof.
  revert g. induction l as [|x l IH]; intros g; simpl.
  - eexists; reflexivity.
  - unfold returns, bind.
    destruct (permutation_returns x g) as (x' & g1 & E & _). rewrite E.
    destruct (IH g1) as [[l' g2] E']. rewrite E'. eexists; reflexivity.
Qed.

(** What [generate_test_trials] returns on a rectangular grid: a
    rearrangement of three blocks, one per trial type, each pairing the
    shuffled file-name pairs of its two rows with the bin vector. *)
Lemma test_trials_struct (grid : list (list Z)) (bins : list Z) (ipc w : nat)
      (g g' : G) (tests : list (list np_scalar)) :
  Forall (fun r => length r = w) grid ->
  generate_test_trials grid bins ipc g = Ok (tests, g') ->
  exists r0 r1 r2 r3 r4 shA shB shC,
    nth_error grid 0 = Some r0 /\ nth_error grid 1 = Some r1
    /\ nth_error grid 2 = Some r2 /\ nth_error grid 3 = Some r3
    /\ nth_error grid 4 = Some r4
    /\ w = ipc /\ length bins = ipc
    /\ Forall2 (@Permutation string) (labelled r0 r0) shA
    /\ Forall2 (@Permutation string) (labelled r1 r2) shB
    /\ Forall2 (@Permutation string) (labelled r3 r4) shC
    /\ Permutation (stacked_block "A-A'" shA bins
                      ++ stacked_block "B-C'" shB bins
                      ++ stacked_block "D-X" shC bins) tests.
Proof.
  intros Rect Hrun. unfold generate_test_trials in Hrun.
  apply bind_ok in Hrun. destruct Hrun as (r0 & g0 & E0 & Hrun).
  apply lift_ok in E0. destruct E0 as [E0 ->]. apply row_ok in E0.
  apply bind_ok in Hrun. destruct Hrun as (r1 & g1 & E1 & Hrun).
  apply lift_ok in E1. destruct E1 as [E1 ->]. apply row_ok in E1.
  apply bind_ok in Hrun. destruct Hrun as (r2 & g2 & E2 & Hrun).
  apply lift_ok in E2. destruct E2 as [E2 ->]. apply row_ok in E2.
  apply bind_ok in Hrun. destruct Hrun as (r3 & g3 & E3 & Hrun).
  apply lift_ok in E3. destruct E3 as [E3 ->]. apply row_ok in E3.
  apply bind_ok in Hrun. destruct Hrun as (r4 & g4 & E4 & Hrun).
  apply lift_ok in E4. destruct E4 as [E4 ->]. apply row_ok in E4.
  apply bind_ok in Hrun. destruct Hrun as (sh & g5 & Hm & Hrun).
  apply mapM_permutation_ok in Hm.
  apply bind_ok in Hrun. destruct Hrun as (stacked & g6 & Est & Hk).
  apply lift_ok in Est. destruct Est as [Est ->].
  apply permutation_ok in Hk.
  rewrite !map_app, !labelled_eq in Hm.
  apply Forall2_app_inv_l in Hm. destruct Hm as (shA & sh' & FA & Hm & ->).
  apply Forall2_app_inv_l in Hm. destruct Hm as (shB & shC & FB & FC & ->).
  apply column_stack3_ok in Est. destruct Est as (L1 & L2 & ->).
  rewrite Forall_forall in Rect.
  pose proof (Rect _ (nth_error_In _ _ E0)) as W0.
  pose proof (Rect _ (nth_error_In _ _ E1)) as W1.
  pose proof (Rect _ (nth_error_In _ _ E2)) as W2.
  pose proof (Rect _ (nth_error_In _ _ E3)) as W3.
  pose proof (Rect _ (nth_error_In _ _ E4)) as W4.
  pose proof (Forall2_length FA) as LA. rewrite labelled_length in LA.
  pose proof (Forall2_length FB) as LB. rewrite labelled_length in LB.
  pose proof (Forall2_length FC) as LC. rewrite labelled_length in LC.
  unfold Np.tile3 in *. rewrite !length_app in L1, L2.
  rewrite repeat_each_length in L1, L2. simpl in L1, L2.
  assert (Hw : w = ipc) by lia.
  assert (Hb : length bins = ipc) by lia.
  exists r0, r1, r2, r3, r4, shA, shB, shC.
  repeat (split; [assumption|]).
  etransitivity; [|exact Hk].
  unfold Np.repeat_each. simpl. rewrite app_nil_r.
  rewrite <- Hb.
  rewrite !combine_app;
    rewrite ?length_app, ?length_combine, ?repeat_length; try lia.
  rewrite !map_app.
  rewrite !stacked_block_eq by lia.
  reflexivity.
Qed.

End TestTrialFacts.

(** ** Rows of one trial type *)

Lemma int_of_str_str (z : Z) : int_of_str (Np.str z) = Some z.
Proof.
  unfold int_of_str, Np.str.
  rewrite NilZero.isi.
  - simpl. now rewrite DecimalZ.of_to.
  - destruct z; simpl; try discriminate.
    intros E. inversion E as [E']. now apply Unsigned.to_uint_nonnil in E'.
  - destruct z; simpl; try discriminate.
    intros E. inversion E as [E']. now apply Unsigned.to_uint_nonnil in E'.
Qed.

Lemma str_inj (x y : Z) : Np.str x = Np.str y -> x = y.
Proof.
  intros E. apply (f_equal int_of_str) in E.
  rewrite !int_of_str_str in E. now inversion E.
Qed.

Lemma filter_all (A : Type) (f : A -> bool) (l : list A) :
  Forall (fun x => f x = true) l -> filter f l = l.
Proof.
  induction 1 as [|x l Hx F IH]; simpl; [reflexivity|]. now rewrite Hx, IH.
Qed.

Lemma filter_none (A : Type) (f : A -> bool) (l : list A) :
  Forall (fun x => f x = false) l -> filter f l = [].
Proof.
  induction 1 as [|x l Hx F IH]; simpl; [reflexivity|]. now rewrite Hx, IH.
Qed.

Lemma Permutation_filter (A : Type) (f : A -> bool) (l l' : list A) :
  Permutation l l' -> Permutation (filter f l) (filter f l').
Proof.
  induction 1 as [|x l l' P IH|x y l|l l' l'' P1 IH1 P2 IH2]; simpl.
  - constructor.
  - destruct (f x); [now constructor | assumption].
  - destruct (f x), (f y); try reflexivity. constructor.
  - etransitivity; eassumption.
Qed.

Lemma shuffled_pairs_length (ra rb : list Z) (sh : list (list string)) :
  Forall2 (@Permutation string) (labelled ra rb) sh ->
  Forall (fun p => length p = 2) sh.
Proof.
  unfold labelled. remember (combine ra rb) as c. clear Heqc. revert sh.
  induction c as [|q c IH]; intros sh F; simpl in F; inversion F; subst;
    constructor; auto.
  match goal with P : Permutation _ _ |- _ => apply Permutation_length in P end.
  simpl in *. lia.
Qed.

Lemma stacked_block_types (t : string) (sh : list (list string)) (bins : list Z) :
  Forall (fun p => length p = 2) sh ->
  Forall (fun trial => trial_type_of trial = t) (stacked_block t sh bins).
Proof.
  intros F. revert bins. induction F as [|p sh Hp F IH]; intros bins;
    unfold stacked_block in *; simpl.
  - constructor.
  - destruct bins as [|b bins]; simpl; constructor; auto.
    destruct p as [|l [|r [|]]]; try discriminate. reflexivity.
Qed.

Lemma stacked_block_lure_bins (t : string) (sh : list (list string)) (bins : list Z) :
  Forall (fun p => length p = 2) sh ->
  length sh = length bins ->
  map lure_bin_of (stacked_block t sh bins) = map Some bins.
Proof.
  intros F. revert bins. induction F as [|p sh Hp F IH]; intros [|b bins] E;
    unfold stacked_block in *; simpl in *; try discriminate; try reflexivity.
  f_equal.
  - destruct p as [|l [|r [|]]]; try discriminate.
    unfold lure_bin_of. simpl. apply int_of_str_str.
  - apply IH. lia.
Qed.

Lemma stacked_block_length (t : string) (sh : list (list string)) (bins : list Z) :
  length sh = length bins -> length (stacked_block t sh bins) = length bins.
Proof.
  intros E. unfold stacked_block. rewrite length_map, length_combine. lia.
Qed.

Lemma stacked_block_row (t : string) (ra rb : list Z) :
  forall (sh : list (list string)) (bins : list Z) (trial : list np_scalar),
    Forall2 (@Permutation string) (labelled ra rb) sh ->
    In trial (stacked_block t sh bins) ->
    exists k x y b,
      nth_error ra k = Some x /\ nth_error rb k = Some y
      /\ nth_error bins k = Some b
      /\ (trial = [NpStr (fmt3 x ++ "a.jpg"); NpStr (fmt3 y ++ "b.jpg");
                   NpStr t; NpStr (Np.str b)]
          \/ trial = [NpStr (fmt3 y ++ "b.jpg"); NpStr (fmt3 x ++ "a.jpg");
                      NpStr t; NpStr (Np.str b)]).
Proof.
  revert rb. induction ra as [|x ra IH]; intros rb sh bins trial F Hin.
  - inversion F; subst. destruct Hin.
  - destruct rb as [|y rb].
    + inversion F; subst. destruct Hin.
    + unfold labelled in F. simpl in F. inversion F as [|? p ? sh' P F']; subst.
      destruct bins as [|b bins]; [destruct Hin|].
      unfold stacked_block in Hin. simpl in Hin. destruct Hin as [<-|Hin].
      * exists 0, x, y, b. repeat (split; [reflexivity|]).
        apply Permutation_length_2_inv in P. destruct P as [->| ->]; auto.
      * destruct (IH rb sh' bins trial F' Hin) as (k & x' & y' & b' & ? & ? & ? & ?).
        exists (S k), x', y', b'. auto.
Qed.

(** ** File names *)

Lemma py_zfill_3_shape (s : string) :
  exists c1 c2 c3 rest, Np.py_zfill s 3 = String c1 (String c2 (String c3 rest)).
Proof.
  destruct s as [|c1 [|c2 [|c3 rest]]]; unfold Np.py_zfill; simpl.
  - repeat eexists.
  - destruct (Ascii.eqb c1 "+" || Ascii.eqb c1 "-")%bool; repeat eexists.
  - destruct (Ascii.eqb c1 "+" || Ascii.eqb c1 "-")%bool; repeat eexists.
  - repeat eexists.
Qed.

(** Whatever the identifier, its rendering has exactly three characters. *)
Lemma fmt3_three_chars (z : Z) :
  exists c1 c2 c3, fmt3 z = String c1 (String c2 (String c3 EmptyString)).
Proof.
  unfold fmt3, Np.char_zfill.
  destruct (py_zfill_3_shape (Np.str z)) as (c1 & c2 & c3 & rest & ->).
  exists c1, c2, c3. simpl. now destruct rest.
Qed.

Lemma fmt3_length (z : Z) : String.length (fmt3 z) = 3.
Proof. destruct (fmt3_three_chars z) as (c1 & c2 & c3 & ->). reflexivity. Qed.

Lemma variant_suffix (z : Z) :
  ends_with "a.jpg" (fmt3 z ++ "a.jpg") = true
  /\ ends_with "b.jpg" (fmt3 z ++ "a.jpg") = false
  /\ ends_with "b.jpg" (fmt3 z ++ "b.jpg") = true
  /\ ends_with "a.jpg" (fmt3 z ++ "b.jpg") = false
  /\ image_id (fmt3 z ++ "a.jpg") = fmt3 z
  /\ image_id (fmt3 z ++ "b.jpg") = fmt3 z.
Proof.
  destruct (fmt3_three_chars z) as (c1 & c2 & c3 & ->).
  repeat split; reflexivity.
Qed.

(** ** The pipeline, step by step *)

Section PipelineFacts.

Context {G : Type} `{RandomSource G}.

Lemma generate_trials_ok (table : list (Z * Z)) (nc ipc : nat) (g g' : G)
      (enc : list string) (tests : list (list np_scalar)) :
  generate_trials table nc ipc g = Ok (enc, tests, g') ->
  exists grid bins g1 g2,
    generate_matched_bins_imgs table nc ipc g = Ok (grid, bins, g1)
    /\ generate_enc_trials grid nc g1 = Ok (enc, g2)
    /\ generate_test_trials grid bins ipc g2 = Ok (tests, g').
Proof.
  unfold generate_trials. intros Hrun.
  apply bind_ok in Hrun. destruct Hrun as ([grid bins] & g1 & E1 & Hrun).
  apply bind_ok in Hrun. destruct Hrun as (enc' & g2 & E2 & Hrun).
  apply bind_ok in Hrun. destruct Hrun as (tests' & g3 & E3 & Hrun).
  apply ret_ok in Hrun. destruct Hrun as [E ->]. inversion E; subst.
  exists grid, bins, g1, g2. auto.
Qed.

Lemma trials_of_block (grid : list (list Z)) (bins : list Z) (ipc w : nat)
      (g g' : G) (tests : list (list np_scalar)) (t : string) :
  Forall (fun r => length r = w) grid ->
  generate_test_trials grid bins ipc g = Ok (tests, g') ->
  In t trial_types ->
  length (trials_of t tests) = ipc
  /\ Permutation (map lure_bin_of (trials_of t tests)) (map Some bins).
Proof.
  intros Rect Hrun Ht.
  pose proof Hrun as S.
  eapply test_trials_struct in S; [|exact Rect].
  destruct S as (r0 & r1 & r2 & r3 & r4 & shA & shB & shC
                 & E0 & E1 & E2 & E3 & E4 & Hw & Hb & FA & FB & FC & P).
  pose proof (shuffled_pairs_length _ _ FA) as PA.
  pose proof (shuffled_pairs_length _ _ FB) as PB.
  pose proof (shuffled_pairs_length _ _ FC) as PC.
  pose proof (Forall2_length FA) as LA. rewrite labelled_length in LA.
  pose proof (Forall2_length FB) as LB. rewrite labelled_length in LB.
  pose proof (Forall2_length FC) as LC. rewrite labelled_length in LC.
  rewrite Forall_forall in Rect.
  pose proof (Rect _ (nth_error_In _ _ E0)) as W0.
  pose proof (Rect _ (nth_error_In _ _ E1)) as W1.
  pose proof (Rect _ (nth_error_In _ _ E2)) as W2.
  pose proof (Rect _ (nth_error_In _ _ E3)) as W3.
  pose proof (Rect _ (nth_error_In _ _ E4)) as W4.
  assert (HA : length shA = length bins) by lia.
  assert (HB : length shB = length bins) by lia.
  assert (HC : length shC = length bins) by lia.
  pose proof (stacked_block_types "A-A'" bins PA) as TA.
  pose proof (stacked_block_types "B-C'" bins PB) as TB.
  pose proof (stacked_block_types "D-X" bins PC) as TC.
  assert (Hsel : forall t' blk (b : bool),
             Forall (fun trial => trial_type_of trial = t') blk ->
             String.eqb t' t = b ->
             Forall (fun trial => String.eqb (trial_type_of trial) t = b) blk).
  { intros t' blk b F Eb. eapply Forall_impl; [|exact F].
    simpl. intros trial ->. exact Eb. }
  unfold trials_of.
  pose proof (Permutation_filter
                (fun trial => String.eqb (trial_type_of trial) t) P) as PF.
  rewrite !filter_app in PF.
  destruct Ht as [<-|[<-|[<-|[]]]].
  - rewrite (filter_all _ (Hsel _ _ true TA eq_refl)) in PF.
    rewrite (filter_none _ (Hsel _ _ false TB eq_refl)) in PF.
    rewrite (filter_none _ (Hsel _ _ false TC eq_refl)) in PF.
    rewrite !app_nil_r in PF. split.
    + rewrite <- (Permutation_length PF), stacked_block_length; lia.
    + rewrite <- PF, stacked_block_lure_bins; auto.
  - rewrite (filter_none _ (Hsel _ _ false TA eq_refl)) in PF.
    rewrite (filter_all _ (Hsel _ _ true TB eq_refl)) in PF.
    rewrite (filter_none _ (Hsel _ _ false TC eq_refl)) in PF.
    rewrite !app_nil_r in PF. simpl in PF. split.
    + rewrite <- (Permutation_length PF), stacked_block_length; lia.
    + rewrite <- PF, stacked_block_lure_bins; auto.
  - rewrite (filter_none _ (Hsel _ _ false TA eq_refl)) in PF.
    rewrite (filter_none _ (Hsel _ _ false TB eq_refl)) in PF.
    rewrite (filter_all _ (Hsel _ _ true TC eq_refl)) in PF.
    simpl in PF. split.
    + rewrite <- (Permutation_length PF), stacked_block_length; lia.
    + rewrite <- PF, stacked_block_lure_bins; auto.
Qed.

End PipelineFacts.

(** * The identifier formatter *)

Lemma string_of_uint_digits (d : Decimal.uint) :
  all_digits (NilEmpty.string_of_uint d) = true.
Proof. induction d; simpl; auto. Qed.

Lemma str_nonneg_digits (z : Z) :
  (0 <= z)%Z -> all_digits (Np.str z) = true.
Proof.
  intros Hz. unfold Np.str. destruct z as [|p|p]; simpl; try reflexivity; [|lia].
  unfold NilZero.string_of_uint.
  destruct (Pos.to_uint p) eqn:E; try reflexivity;
    rewrite <- E; apply string_of_uint_digits.
Qed.

Lemma digit_not_sign (c : ascii) :
  is_digit c = true -> (Ascii.eqb c "+" || Ascii.eqb c "-")%bool = false.
Proof.
  intros D.
  destruct (Ascii.eqb_spec c "+") as [->|]; [discriminate|].
  destruct (Ascii.eqb_spec c "-") as [->|]; [discriminate|].
  reflexivity.
Qed.

Lemma zfill3_digits (s : string) :
  all_digits s = true ->
  exists c1 c2 c3,
    Np.char_zfill s 3 = String c1 (String c2 (String c3 EmptyString))
    /\ is_digit c1 = true /\ is_digit c2 = true /\ is_digit c3 = true.
Proof.
  intros D. unfold Np.char_zfill, Np.py_zfill.
  destruct s as [|c1 [|c2 [|c3 rest]]]; simpl in *.
  - exists "0"%char, "0"%char, "0"%char. auto.
  - apply andb_prop in D. destruct D as [D1 _].
    rewrite (digit_not_sign _ D1). simpl.
    exists "0"%char, "0"%char, c1. auto.
  - apply andb_prop in D. destruct D as [D1 D].
    apply andb_prop in D. destruct D as [D2 _].
    rewrite (digit_not_sign _ D1). simpl.
    exists "0"%char, c1, c2. auto.
  - apply andb_prop in D. destruct D as [D1 D].
    apply andb_prop in D. destruct D as [D2 D].
    apply andb_prop in D. destruct D as [D3 _].
    exists c1, c2, c3. destruct rest; auto.
Qed.

(** A non-negative identifier renders as three digits. *)
Lemma fmt3_digits (z : Z) :
  (0 <= z)%Z ->
  filename_form (fmt3 z ++ "a.jpg") = true
  /\ filename_form (fmt3 z ++ "b.jpg") = true.
Proof.
  intros Hz. unfold fmt3.
  destruct (zfill3_digits _ (str_nonneg_digits Hz))
    as (c1 & c2 & c3 & -> & D1 & D2 & D3).
  simpl. rewrite D1, D2, D3. auto.
Qed.

(** On the identifiers that fit, the code's rendering is the zero-padded
    three-digit decimal, and can be read back; checked on all thousand. *)
Lemma fmt3_table_check :
  forallb (fun n => String.eqb (fmt3 (Z.of_nat n)) (zero_padded 3 (Z.of_nat n))
                    && match int_of_str (fmt3 (Z.of_nat n)) with
                       | Some z => (z =? Z.of_nat n)%Z
                       | None => false
                       end)
          (seq 0 1000) = true.
Proof. vm_compute. reflexivity. Qed.

Lemma fmt3_in_range (z : Z) :
  (0 <= z <= 999)%Z ->
  fmt3 z = zero_padded 3 z /\ int_of_str (fmt3 z) = Some z.
Proof.
  intros Hz. pose proof fmt3_table_check as C.
  rewrite forallb_forall in C. specialize (C (Z.to_nat z)).
  rewrite Z2Nat.id in C by lia.
  assert (Hin : In (Z.to_nat z) (seq 0 1000)) by (apply in_seq; lia).
  apply C in Hin. apply andb_prop in Hin. destruct Hin as [E1 E2].
  apply String.eqb_eq in E1. split; [assumption|].
  destruct (int_of_str (fmt3 z)) as [y|]; [|discriminate].
  apply Z.eqb_eq in E2. now subst.
Qed.

Lemma fmt3_inj (x y : Z) :
  (0 <= x <= 999)%Z -> (0 <= y <= 999)%Z -> fmt3 x = fmt3 y -> x = y.
Proof.
  intros Hx Hy E.
  destruct (fmt3_in_range Hx) as [_ Ex]. destruct (fmt3_in_range Hy) as [_ Ey].
  rewrite E in Ex. rewrite Ex in Ey. now inversion Ey.
Qed.

(** ** Cells of the grid *)

Lemma in_segments (table : list (Z * Z)) (ipb : nat) (bs : list Z)
      (segs : list (list Z)) (x : Z) :
  Forall2 (fun bin seg =>
             length seg = ipb /\ Forall (fun y => In (y, bin) table) seg)
          bs segs ->
  In x (concat segs) -> exists b, In b bs /\ In (x, b) table.
Proof.
  induction 1 as [|b s bs segs [_ Fs] F IH]; simpl; [intros []|].
  intros Hin. apply in_app_or in Hin. destruct Hin as [Hin|Hin].
  - rewrite Forall_forall in Fs. exists b. split; [now left | auto].
  - destruct (IH Hin) as (b' & Hb' & Hx). exists b'. split; [now right | auto].
Qed.

Lemma NoDup_firstn (A : Type) (n : nat) (l : list A) :
  NoDup l -> NoDup (firstn n l).
Proof.
  intros N. rewrite <- (firstn_skipn n l) in N.
  now apply NoDup_app_remove_r in N.
Qed.

Lemma NoDup_fst_filter (A B : Type) (f : A * B -> bool) (t : list (A * B)) :
  NoDup (map fst t) -> NoDup (map fst (filter f t)).
Proof.
  induction t as [|p t IH]; simpl; intros N; [constructor|].
  inversion N as [|? ? Hn N']; subst.
  destruct (f p); simpl; [|auto].
  constructor; [|auto].
  intros Hin. apply Hn. apply in_map_iff in Hin.
  destruct Hin as (q & E & Hq). apply filter_In in Hq.
  apply in_map_iff. exists q. tauto.
Qed.

Lemma NoDup_fst_functional (A B : Type) (t : list (A * B)) (x : A) (b b' : B) :
  NoDup (map fst t) -> In (x, b) t -> In (x, b') t -> b = b'.
Proof.
  induction t as [|p t IH]; simpl; intros N H1 H2; [destruct H1|].
  inversion N as [|? ? Hn N']; subst.
  destruct H1 as [->|H1], H2 as [E|H2].
  - now inversion E.
  - exfalso. apply Hn. simpl. change x with (fst (x, b')). now apply in_map.
  - subst p. exfalso. apply Hn. simpl. change x with (fst (x, b)). now apply in_map.
  - auto.
Qed.

Lemma blocks_NoDup (table : list (Z * Z)) (nc ipc ipb : nat) (bs : list Z)
      (blks : list (list (list Z))) :
  NoDup (map fst table) ->
  NoDup bs ->
  Forall2 (block_of (map fst table) (map snd table) nc ipc ipb) bs blks ->
  NoDup (concat (map (@concat Z) blks))
  /\ forall x, In x (concat (map (@concat Z) blks)) ->
               exists b, In b bs /\ In (x, b) table.
Proof.
  intros Nt Nb F. induction F as [|b blk bs blks Hb F IH]; simpl.
  - split; [constructor | intros x []].
  - inversion Nb as [|? ? Hnb Nb']; subst.
    destruct (IH Nb') as [IH1 IH2].
    destruct (block_concat Hb) as (sh & P & E).
    assert (Hsel : forall x, In x (concat blk) -> In (x, b) table).
    { intros x Hx. rewrite E in Hx. apply In_firstn in Hx.
      apply (Permutation_in _ (Permutation_sym P)) in Hx.
      now apply select_In. }
    split.
    + apply NoDup_app.
      * rewrite E. apply NoDup_firstn.
        apply (Permutation_NoDup P).
        rewrite select_table. now apply NoDup_fst_filter.
      * assumption.
      * intros x Hx Hx'. destruct (IH2 x Hx') as (b' & Hb' & Hxb').
        assert (b = b') by (eapply NoDup_fst_functional; eauto).
        subst b'. contradiction.
    + intros x Hx. apply in_app_or in Hx. destruct Hx as [Hx|Hx].
      * exists b. split; [now left | auto].
      * destruct (IH2 x Hx) as (b' & Hb' & Hxb'). exists b'. split; [now right | auto].
Qed.

Lemma concat_repeat_nil (A : Type) (n : nat) : concat (repeat (@nil A) n) = [].
Proof. induction n; simpl; auto. Qed.

Section GridCells.

Context {G : Type} `{RandomSource G}.

Variables (table : list (Z * Z)) (nc ipc : nat) (g g' : G).
Variables (grid : list (list Z)) (lure_bins : list Z).
Hypothesis Hrun :
  generate_matched_bins_imgs table nc ipc g = Ok (grid, lure_bins, g').

(** Every cell is an image of the table or a zero left by [np.zeros]. *)
Lemma grid_cell (row : list Z) (x : Z) :
  In row grid -> In x row -> x = 0%Z \/ exists b, In (x, b) table.
Proof.
  intros Hrow Hx.
  destruct (grid_row_In _ _ _ _ Hrun _ Hrow) as (segs & -> & F2).
  apply in_app_or in Hx. destruct Hx as [Hx|Hx].
  - right. destruct (@in_segments _ _ _ _ _ F2 Hx) as (b & _ & Hb). eauto.
  - left. now apply repeat_spec in Hx.
Qed.

Lemma grid_cell_full (row : list Z) (x : Z) :
  length (bins_unique table) * (ipc / length (bins_unique table)) = ipc ->
  In row grid -> In x row -> exists b, In (x, b) table.
Proof.
  intros Hdiv Hrow Hx.
  destruct (grid_row_In _ _ _ _ Hrun _ Hrow) as (segs & -> & F2).
  rewrite Hdiv, Nat.sub_diag in Hx. simpl in Hx. rewrite app_nil_r in Hx.
  destruct (@in_segments _ _ _ _ _ F2 Hx) as (b & _ & Hb). eauto.
Qed.

(** With distinct identifiers and a grid fully covered by the blocks, no
    image occurs twice in the grid. *)
Lemma grid_NoDup :
  NoDup (map fst table) ->
  length (bins_unique table) * (ipc / length (bins_unique table)) = ipc ->
  NoDup (concat grid).
Proof.
  intros Nt Hdiv.
  destruct (stratify_struct _ _ _ _ Hrun) as (_ & _ & blks & F2 & E).
  pose proof (@blocks_length _ _ nc ipc _ _ _ F2) as Fl.
  rewrite Hdiv, Nat.sub_diag in E. subst grid.
  assert (Fl' : Forall (fun blk => length blk = length (repeat (@nil Z) nc)) blks).
  { now rewrite repeat_length. }
  destruct (@blocks_NoDup _ _ _ _ _ _ Nt (unique_NoDup _) F2) as [N _].
  eapply Permutation_NoDup; [|exact N].
  symmetry.
  rewrite happend_concat
    by (rewrite fold_happend_length, repeat_length, ?zeros_length; auto).
  rewrite fold_happend_concat by assumption.
  rewrite concat_repeat_nil. unfold Np.zeros. simpl.
  rewrite concat_repeat_nil, app_nil_r. reflexivity.
Qed.

End GridCells.

(** * The encoding-trial builder and the whole pipeline *)

Lemma slice_to_pred (A : Type) (arr : list A) (n : nat) :
  length arr = n -> Np.slice_to (Z.of_nat n - 1) arr = firstn (n - 1) arr.
Proof.
  intros E. unfold Np.slice_to. destruct n as [|n].
  - destruct arr; [reflexivity | discriminate].
  - destruct (Z.ltb_spec (Z.of_nat (S n) - 1) 0); [lia|].
    f_equal. lia.
Qed.

Lemma concat_length_rect (A : Type) (w : nat) (l : list (list A)) :
  Forall (fun r => length r = w) l -> length (concat l) = length l * w.
Proof.
  induction 1 as [|r l Hr F IH]; simpl; [reflexivity|].
  rewrite length_app, IH, Hr. reflexivity.
Qed.

Lemma Forall_firstn (A : Type) (P : A -> Prop) (n : nat) (l : list A) :
  Forall P l -> Forall P (firstn n l).
Proof.
  rewrite !Forall_forall. intros F x Hx. apply F. eapply In_firstn; eauto.
Qed.

Section PipelineReturns.

Context {G : Type} `{RandomSource G}.

Lemma enc_trials_ok (grid : list (list Z)) (nc : nat) (g g' : G) (enc : list string) :
  generate_enc_trials grid nc g = Ok (enc, g') ->
  Permutation (map (fun z => (fmt3 z ++ "a.jpg")%string)
                   (concat (Np.slice_to (Z.of_nat nc - 1) grid)))
              enc.
Proof.
  unfold generate_enc_trials. intros Hrun.
  apply bind_ok in Hrun. destruct Hrun as (sh & g1 & P & Hrun).
  apply permutation_ok in P. apply ret_ok in Hrun. destruct Hrun as [-> _].
  unfold make_three_digits. rewrite map_map.
  now apply Permutation_map.
Qed.

Lemma enc_trials_returns (grid : list (list Z)) (nc : nat) (g : G) :
  returns (generate_enc_trials grid nc) g.
Proof.
  unfold returns, generate_enc_trials, bind.
  destruct (permutation_returns
              (concat (Np.slice_to (Z.of_nat nc - 1) grid)) g)
    as (sh & g1 & E & _).
  rewrite E. unfold ret. eauto.
Qed.

Lemma test_trials_returns (grid : list (list Z)) (bins : list Z) (ipc : nat) (g : G) :
  5 <= length grid ->
  Forall (fun r => length r = ipc) grid ->
  length bins = ipc ->
  returns (generate_test_trials grid bins ipc) g.
Proof.
  intros Hlen Rect Hb.
  destruct grid as [|r0 [|r1 [|r2 [|r3 [|r4 rest]]]]]; simpl in Hlen; try lia.
  inversion Rect as [|? ? W0 R1]; subst. inversion R1 as [|? ? W1 R2]; subst.
  inversion R2 as [|? ? W2 R3]; subst. inversion R3 as [|? ? W3 R4]; subst.
  inversion R4 as [|? ? W4 _]; subst.
  unfold returns, generate_test_trials. unfold bind at 1 2 3 4 5. simpl.
  unfold bind at 1.
  match goal with
  | |- context [mapM ?f ?l g] =>
      destruct (mapM_permutation_returns l g) as [[sh g1] E];
      pose proof (mapM_permutation_ok _ _ E) as F
  end.
  rewrite E. apply Forall2_length in F.
  rewrite !map_app, !labelled_eq, !length_app, !labelled_length in F.
  unfold bind at 1, lift, np_column_stack3. unfold Np.tile3.
  rewrite !length_app, !repeat_length. simpl length.
  match goal with
  | |- context [((?a =? ?b) && (?c =? ?d))%bool] =>
      replace (a =? b) with true by (symmetry; apply Nat.eqb_eq; lia);
      replace (c =? d) with true by (symmetry; apply Nat.eqb_eq; lia)
  end.
  simpl.
  match goal with
  | |- context [permutation ?l g1] =>
      destruct (permutation_returns l g1) as (t & g2 & E' & _)
  end.
  rewrite E'. eauto.
Qed.

(** The pipeline returns when every bin supplies what the reshape asks
    for, the blocks cover all the columns and there are at least the five
    rows that the test-trial builder reads. *)
Lemma generate_trials_returns (table : list (Z * Z)) (nc ipc : nat) (g : G) :
  2 <= length table ->
  Forall (fun b => Nat.min ipc (count_bin table b)
                   = nc * (ipc / length (bins_unique table)))
         (bins_unique table) ->
  length (bins_unique table) * (ipc / length (bins_unique table)) = ipc ->
  5 <= nc ->
  returns (generate_trials table nc ipc) g.
Proof.
  intros Hlen Hshape Hdiv Hnc.
  assert (R : returns (generate_matched_bins_imgs table nc ipc) g)
    by (apply stratify_returns_iff; auto).
  destruct R as [[[grid bins] g1] E].
  destruct (enc_trials_returns grid nc g1) as [[enc g2] E2].
  assert (R3 : returns (generate_test_trials grid bins ipc) g2).
  { apply test_trials_returns.
    - rewrite (grid_length _ _ _ _ E). assumption.
    - apply (grid_rows_length _ _ _ _ E).
    - rewrite (lure_bins_eq _ _ _ _ E), repeat_each_length. assumption. }
  destruct R3 as [[tests g3] E3].
  unfold returns, generate_trials, bind. rewrite E, E2, E3. unfold ret. eauto.
Qed.

End PipelineReturns.

(** * Properties of the trial lists *)

Section PipelineClaims.

Context {G : Type} `{RandomSource G}.

Lemma test_trial_row (grid : list (list Z)) (bins : list Z) (ipc : nat)
      (g g' : G) (tests : list (list np_scalar)) (trial : list np_scalar) :
  Forall (fun r => length r = ipc) grid ->
  generate_test_trials grid bins ipc g = Ok (tests, g') ->
  In trial tests ->
  exists t ia ib k x y b,
    In (t, ia, ib) pairing
    /\ k < ipc
    /\ nth_error (nth ia grid []) k = Some x
    /\ nth_error (nth ib grid []) k = Some y
    /\ nth_error bins k = Some b
    /\ (trial = [NpStr (fmt3 x ++ "a.jpg"); NpStr (fmt3 y ++ "b.jpg");
                 NpStr t; NpStr (Np.str b)]
        \/ trial = [NpStr (fmt3 y ++ "b.jpg"); NpStr (fmt3 x ++ "a.jpg");
                    NpStr t; NpStr (Np.str b)]).
Proof.
  intros Rect Hrun Hin.
  pose proof Hrun as S.
  eapply test_trials_struct in S; [|exact Rect].
  destruct S as (r0 & r1 & r2 & r3 & r4 & shA & shB & shC
                 & E0 & E1 & E2 & E3 & E4 & _ & Hb & FA & FB & FC & P).
  apply (Permutation_in _ (Permutation_sym P)) in Hin.
  assert (Hk : forall k b, nth_error bins k = Some b -> k < ipc).
  { intros k b E. rewrite <- Hb. apply nth_error_Some. congruence. }
  apply (nth_error_nth _ _ []) in E0, E1, E2, E3, E4.
  apply in_app_or in Hin. destruct Hin as [Hin|Hin];
    [|apply in_app_or in Hin; destruct Hin as [Hin|Hin]].
  - destruct (stacked_block_row _ _ _ _ _ FA Hin)
      as (k & x & y & b & Hx & Hy & Hbk & Ht).
    exists "A-A'"%string, 0, 0, k, x, y, b. rewrite E0.
    repeat split; eauto. simpl. auto.
  - destruct (stacked_block_row _ _ _ _ _ FB Hin)
      as (k & x & y & b & Hx & Hy & Hbk & Ht).
    exists "B-C'"%string, 1, 2, k, x, y, b. rewrite E1, E2.
    repeat split; eauto. simpl. auto.
  - destruct (stacked_block_row _ _ _ _ _ FC Hin)
      as (k & x & y & b & Hx & Hy & Hbk & Ht).
    exists "D-X"%string, 3, 4, k, x, y, b. rewrite E3, E4.
    repeat split; eauto. simpl. auto.
Qed.

(** C1.  In the test-trial list that the pipeline returns, each of the
    three trial types has [img_per_cond] trials, and the lure bins read
    from them are, as a multiset, the bin vector returned by the
    stratifier; hence the three types have the same bin composition,
    whatever the random draws. *)
Theorem matched_lure_bins (table : list (Z * Z)) (nc ipc : nat) (g g' : G)
        (enc : list string) (tests : list (list np_scalar)) :
  generate_trials table nc ipc g = Ok (enc, tests, g') ->
  exists grid bins g1,
    generate_matched_bins_imgs table nc ipc g = Ok (grid, bins, g1)
    /\ (forall t, In t trial_types ->
                  length (trials_of t tests) = ipc
                  /\ Permutation (map lure_bin_of (trials_of t tests))
                                 (map Some bins))
    /\ (forall t t', In t trial_types -> In t' trial_types ->
                     Permutation (map lure_bin_of (trials_of t tests))
                                 (map lure_bin_of (trials_of t' tests))).
Proof.
  intros Hrun.
  destruct (generate_trials_ok _ _ _ _ Hrun) as (grid & bins & g1 & g2 & E1 & _ & E3).
  exists grid, bins, g1. split; [exact E1|].
  pose proof (grid_rows_length _ _ _ _ E1) as Rect.
  assert (B : forall t, In t trial_types ->
                        length (trials_of t tests) = ipc
                        /\ Permutation (map lure_bin_of (trials_of t tests))
                                       (map Some bins)).
  { intros t Ht. eapply trials_of_block; eauto. }
  split; [exact B|].
  intros t t' Ht Ht'.
  destruct (B t Ht) as [_ P]. destruct (B t' Ht') as [_ P'].
  rewrite P, P'. reflexivity.
Qed.


End PipelineClaims.

Section MoreClaims.

Context {G : Type} `{RandomSource G}.

(** C7, as the code has it.  For a table of non-negative identifiers,
    every test trial is a row of four strings: two file names of the form
    [<3-digit-id><a|b>.jpg], the trial type, and the decimal rendering of
    an integer label of the bin vector (the table is one string array). *)
Theorem test_trial_is_a_row_of_strings (table : list (Z * Z)) (nc ipc : nat)
        (g g1 g2 g3 : G) (grid : list (list Z)) (bins : list Z)
        (tests : list (list np_scalar)) :
  Forall (fun p => (0 <= fst p)%Z) table ->
  generate_matched_bins_imgs table nc ipc g = Ok (grid, bins, g1) ->
  generate_test_trials grid bins ipc g2 = Ok (tests, g3) ->
  Forall (row_of_strings bins) tests.
Proof.
  intros Hpos E1 E3. apply Forall_forall. intros trial Hin.
  unfold row_of_strings.
  pose proof (grid_rows_length _ _ _ _ E1) as Rect.
  pose proof Hin as T. eapply test_trial_row in T; [|exact Rect|exact E3].
  destruct T as (t & ia & ib & k & x & y & b & Hp & Hk & Hx & Hy & Hb & Ht).
  assert (Hcell : forall i z, nth_error (nth i grid []) k = Some z -> (0 <= z)%Z).
  { intros i z Hz. apply nth_error_In in Hz.
    destruct (nth_In_or_nil grid i) as [Hrow|Hnil].
    - destruct (grid_cell _ _ _ _ E1 _ _ Hrow Hz) as [->|(c & Hc)]; [lia|].
      rewrite Forall_forall in Hpos. apply (Hpos _ Hc).
    - rewrite Hnil in Hz. destruct Hz. }
  destruct (fmt3_digits (Hcell _ _ Hx)) as [Fa _].
  destruct (fmt3_digits (Hcell _ _ Hy)) as [_ Fb].
  assert (Htype : In t trial_types).
  { unfold pairing, trial_types in *. simpl in *.
    destruct Hp as [E|[E|[E|[]]]]; inversion E; auto. }
  apply nth_error_In in Hb.
  destruct Ht as [-> | ->].
  - exists (fmt3 x ++ "a.jpg")%string, (fmt3 y ++ "b.jpg")%string, t, b.
    repeat split; auto. unfold lure_bin_of. simpl. apply int_of_str_str.
  - exists (fmt3 y ++ "b.jpg")%string, (fmt3 x ++ "a.jpg")%string, t, b.
    repeat split; auto. unfold lure_bin_of. simpl. apply int_of_str_str.
Qed.


End MoreClaims.

(** ** The formatter's [digits] parameter *)

(** C5.  At the default width the formatter zero-pads: 7 gives ["007"],
    123 gives ["123"], and every identifier of [0 .. 999] gives its
    zero-padded three-digit decimal.  The [digits] argument has no effect:
    with [digits = 4] the identifier 7 is still rendered ["007"], not
    ["0007"]. *)
Theorem make_three_digits_ignores_digits :
  make_three_digits [7%Z] 3 = ["007"%string]
  /\ make_three_digits [123%Z] 3 = ["123"%string]
  /\ (forall z, (0 <= z <= 999)%Z -> make_three_digits [z] 3 = [zero_padded 3 z])
  /\ (forall x digits, make_three_digits x digits = make_three_digits x 3)
  /\ zero_padded 4 7 = "0007"%string
  /\ make_three_digits [7%Z] 4 = ["007"%string]
  /\ make_three_digits [7%Z] 4 <> [zero_padded 4 7].
Proof.
  repeat split; try reflexivity.
  - intros z Hz. unfold make_three_digits. simpl.
    f_equal. apply (proj1 (fmt3_in_range Hz)).
  - vm_compute. discriminate.
Qed.

(** C6.  An identifier that needs more characters than the width is cut
    to its leading characters and no error is raised; the width is always
    three, whatever [digits] says: 12345 gives ["123"] with [digits = 3]
    and also with [digits = 4], where four characters were asked for. *)
Theorem make_three_digits_truncates_to_three :
  make_three_digits [12345%Z] 3 = ["123"%string]
  /\ (forall x digits,
         Forall (fun s => String.length s = 3) (make_three_digits x digits))
  /\ make_three_digits [12345%Z] 4 = ["123"%string]
  /\ Forall (fun s => String.length s <> 4) (make_three_digits [12345%Z] 4).
Proof.
  repeat split; try reflexivity.
  - intros x digits. unfold make_three_digits. apply Forall_forall.
    intros s Hs. apply in_map_iff in Hs. destruct Hs as (z & <- & _).
    apply fmt3_length.
  - repeat constructor. vm_compute. discriminate.
Qed.

(** ** Order of the column blocks, and two end-to-end scenarios *)

Section Scenarios.

Context {G : Type} `{RandomSource G}.

Lemma enc_trials_length (table : list (Z * Z)) (nc ipc : nat)
      (g g1 g2 : G) (grid : list (list Z)) (bins : list Z) (enc : list string) :
  generate_matched_bins_imgs table nc ipc g = Ok (grid, bins, g1) ->
  generate_enc_trials grid nc g1 = Ok (enc, g2) ->
  length enc = (nc - 1) * ipc.
Proof.
  intros E1 E2.
  pose proof (grid_length _ _ _ _ E1) as Hlen.
  pose proof (grid_rows_length _ _ _ _ E1) as Rect.
  pose proof (enc_trials_ok _ _ _ E2) as P.
  rewrite (slice_to_pred grid Hlen) in P.
  rewrite <- (Permutation_length P), length_map.
  rewrite (concat_length_rect (w := ipc)) by now apply Forall_firstn.
  rewrite length_firstn. f_equal. lia.
Qed.

Lemma test_trials_length (grid : list (list Z)) (bins : list Z) (ipc : nat)
      (g g' : G) (tests : list (list np_scalar)) :
  Forall (fun r => length r = ipc) grid ->
  generate_test_trials grid bins ipc g = Ok (tests, g') ->
  length tests = 3 * ipc.
Proof.
  intros Rect Hrun.
  pose proof Hrun as S.
  eapply test_trials_struct in S; [|exact Rect].
  destruct S as (r0 & r1 & r2 & r3 & r4 & shA & shB & shC
                 & E0 & E1 & E2 & E3 & E4 & _ & Hb & FA & FB & FC & P).
  pose proof (Forall2_length FA) as LA. rewrite labelled_length in LA.
  pose proof (Forall2_length FB) as LB. rewrite labelled_length in LB.
  pose proof (Forall2_length FC) as LC. rewrite labelled_length in LC.
  rewrite Forall_forall in Rect.
  pose proof (Rect _ (nth_error_In _ _ E0)) as W0.
  pose proof (Rect _ (nth_error_In _ _ E1)) as W1.
  pose proof (Rect _ (nth_error_In _ _ E2)) as W2.
  pose proof (Rect _ (nth_error_In _ _ E3)) as W3.
  pose proof (Rect _ (nth_error_In _ _ E4)) as W4.
  rewrite <- (Permutation_length P), !length_app.
  rewrite !stacked_block_length; lia.
Qed.

Lemma catalog_2x20_does_not_fit (g : G) :
  ~ returns (generate_matched_bins_imgs (catalog 2 20) 5 10) g.
Proof.
  intros R. apply stratify_returns_iff in R. destruct R as [_ F].
  rewrite Forall_forall in F. specialize (F 1%Z).
  assert (Hin : In 1%Z (bins_unique (catalog 2 20))) by (vm_compute; auto).
  apply F in Hin. vm_compute in Hin. discriminate.
Qed.

Lemma catalog_5x10_shape_ok :
  Forall (fun b => Nat.min 10 (count_bin (catalog 5 10) b)
                   = 5 * (10 / length (bins_unique (catalog 5 10))))
         (bins_unique (catalog 5 10)).
Proof.
  apply Forall_forall. intros b Hb. vm_compute in Hb.
  repeat (destruct Hb as [<-|Hb]; [vm_compute; reflexivity|]). destruct Hb.
Qed.

(** C8, as the code has it.  The distinct bin labels are processed in
    ascending order: the bin vector lists each label
    [floor(img_per_cond / nbins)] times in that order, and every grid row
    is the concatenation of one segment per label, in that order, holding
    images of that bin.  With 2 bins of 20 images, [num_cond = 5] and
    [img_per_cond = 10] the stratifier does not return a grid: each bin
    keeps 10 images and the reshape asks for 5 x 5, so a [ValueError]
    ends the pipeline.  With 5 bins of 10 images and the same parameters
    the grid is 5 x 10, the bin vector is 1 1 2 2 3 3 4 4 5 5, the
    encoding list has 40 entries and the test list 30, 10 per type. *)
Theorem column_blocks_follow_ascending_bins :
  (forall (table : list (Z * Z)) (nc ipc : nat) (g g' : G)
          (grid : list (list Z)) (bins : list Z),
      generate_matched_bins_imgs table nc ipc g = Ok (grid, bins, g') ->
      let bu := bins_unique table in
      let ipb := ipc / length bu in
      StronglySorted Z.lt bu
      /\ (forall b, In b bu <-> In b (map snd table))
      /\ bins = Np.repeat_each bu ipb
      /\ forall row, In row grid ->
           exists segs,
             row = concat segs ++ repeat 0%Z (ipc - length bu * ipb)
             /\ Forall2 (fun bin seg =>
                           length seg = ipb
                           /\ Forall (fun x => In (x, bin) table) seg)
                        bu segs)
  /\ (forall g : G,
         generate_matched_bins_imgs (catalog 2 20) 5 10 g = Err ValueError
         /\ generate_trials (catalog 2 20) 5 10 g = Err ValueError)
  /\ (forall g : G,
         exists grid bins g1 enc g2 tests g3,
           generate_matched_bins_imgs (catalog 5 10) 5 10 g = Ok (grid, bins, g1)
           /\ generate_enc_trials grid 5 g1 = Ok (enc, g2)
           /\ generate_test_trials grid bins 10 g2 = Ok (tests, g3)
           /\ generate_trials (catalog 5 10) 5 10 g = Ok (enc, tests, g3)
           /\ length grid = 5
           /\ Forall (fun row => length row = 10) grid
           /\ bins = [1; 1; 2; 2; 3; 3; 4; 4; 5; 5]%Z
           /\ length enc = 40
           /\ length tests = 30
           /\ forall t, In t trial_types -> length (trials_of t tests) = 10).
Proof.
  split; [|split].
  - intros table nc ipc g g' grid bins E bu ipb.
    split; [apply unique_sorted|].
    split; [intros b; apply unique_In|].
    split; [apply (lure_bins_eq _ _ _ _ E)|].
    intros row Hrow. apply (grid_row_In _ _ _ _ E _ Hrow).
  - intros g.
    assert (E : generate_matched_bins_imgs (catalog 2 20) 5 10 g = Err ValueError).
    { destruct (generate_matched_bins_imgs (catalog 2 20) 5 10 g)
        as [r|e] eqn:E.
      - exfalso. apply (@catalog_2x20_does_not_fit g). exists r. exact E.
      - apply stratify_error in E. destruct E as [[Hl _]|[_ ->]].
        + vm_compute in Hl. lia.
        + reflexivity. }
    split; [exact E|].
    unfold generate_trials, bind. rewrite E. reflexivity.
  - intros g.
    assert (R : returns (generate_trials (catalog 5 10) 5 10) g).
    { apply generate_trials_returns.
      - vm_compute. lia.
      - apply catalog_5x10_shape_ok.
      - vm_compute. reflexivity.
      - lia. }
    destruct R as [[[enc tests] g3] E].
    destruct (generate_trials_ok _ _ _ _ E)
      as (grid & bins & g1 & g2 & E1 & E2 & E3).
    pose proof (grid_rows_length _ _ _ _ E1) as Rect.
    exists grid, bins, g1, enc, g2, tests, g3.
    repeat (split; [assumption|]).
    split; [apply (grid_length _ _ _ _ E1)|].
    split; [exact Rect|].
    split; [rewrite (lure_bins_eq _ _ _ _ E1); vm_compute; reflexivity|].
    split; [apply (enc_trials_length _ _ _ _ E1 E2)|].
    split; [change 30 with (3 * 10); eapply test_trials_length; eauto|].
    intros t Ht. eapply trials_of_block; eauto.
Qed.

End Scenarios.

(** * The claims on the concrete runs *)

Lemma demo_stratified :
  generate_matched_bins_imgs demo_table 5 5 demo_seed
  = Ok (demo_grid, demo_bins, demo_g1).
Proof. vm_compute. reflexivity. Qed.

Lemma demo_encoded :
  generate_enc_trials demo_grid 5 demo_g1 = Ok (demo_enc, demo_g2).
Proof. vm_compute. reflexivity. Qed.

Lemma demo_tested :
  generate_test_trials demo_grid demo_bins 5 demo_g2 = Ok (demo_tests, demo_g3).
Proof. vm_compute. reflexivity. Qed.

Lemma demo_run :
  generate_trials demo_table 5 5 demo_seed = Ok (demo_enc, demo_tests, demo_g3).
Proof. vm_compute. reflexivity. Qed.

Lemma odd_stratified :
  generate_matched_bins_imgs (catalog 5 35) 5 36 demo_seed
  = Ok (odd_grid, odd_bins, odd_g1).
Proof. vm_compute. reflexivity. Qed.

Lemma catalog_valid (nbins per : nat) :
  nbins * per <= 999 -> valid_catalog (catalog nbins per).
Proof.
  intros Hn. unfold valid_catalog, catalog. split.
  - rewrite map_map. simpl.
    apply Finite.Injective_map_NoDup; [|apply seq_NoDup].
    intros i j E. lia.
  - apply Forall_forall. intros p Hp. apply in_map_iff in Hp.
    destruct Hp as (i & <- & Hi). apply in_seq in Hi. simpl. lia.
Qed.

Lemma catalog_nonneg (nbins per : nat) :
  Forall (fun p => (0 <= fst p)%Z) (catalog nbins per).
Proof.
  apply Forall_forall. intros p Hp. apply in_map_iff in Hp.
  destruct Hp as (i & <- & Hi). simpl. lia.
Qed.

(** Witness of C1 on the demo run. *)
Lemma matched_lure_bins_witness :
  generate_trials demo_table 5 5 demo_seed = Ok (demo_enc, demo_tests, demo_g3)
  /\ exists grid bins g1,
      generate_matched_bins_imgs demo_table 5 5 demo_seed = Ok (grid, bins, g1)
      /\ (forall t, In t trial_types ->
                    length (trials_of t demo_tests) = 5
                    /\ Permutation (map lure_bin_of (trials_of t demo_tests))
                                   (map Some bins))
      /\ (forall t t', In t trial_types -> In t' trial_types ->
                       Permutation (map lure_bin_of (trials_of t demo_tests))
                                   (map lure_bin_of (trials_of t' demo_tests))).
Proof.
  split; [exact demo_run|].
  exact (matched_lure_bins demo_table 5 5 demo_seed demo_run).
Defined.



(** Witness of C7 on the demo run. *)
Lemma test_trial_is_a_row_of_strings_witness :
  Forall (fun p => (0 <= fst p)%Z) demo_table
  /\ generate_matched_bins_imgs demo_table 5 5 demo_seed
     = Ok (demo_grid, demo_bins, demo_g1)
  /\ generate_test_trials demo_grid demo_bins 5 demo_g2 = Ok (demo_tests, demo_g3)
  /\ Forall (row_of_strings demo_bins) demo_tests.
Proof.
  split; [apply catalog_nonneg|].
  split; [exact demo_stratified|].
  split; [exact demo_tested|].
  exact (test_trial_is_a_row_of_strings 5 5 demo_seed demo_g2
           (catalog_nonneg 5 5) demo_stratified demo_tested).
Defined.

(** Witness of C10: 36 images per condition asked of five bins of 35. *)
Lemma bin_vector_length_witness :
  generate_matched_bins_imgs (catalog 5 35) 5 36 demo_seed
  = Ok (odd_grid, odd_bins, odd_g1)
  /\ length odd_bins = 35
  /\ Forall (fun row => length row = 36 /\ skipn 35 row = [0%Z]) odd_grid.
Proof.
  split; [exact odd_stratified|].
  pose proof (bin_vector_length_and_trailing_zeros (catalog 5 35) 5 36 demo_seed
                odd_stratified) as (L & _ & F).
  split; [exact L | exact F].
Defined.

(** C2 does not hold as stated: 36 images per condition are asked of five
    bins of 35 images each, and the stratifier returns. *)
Lemma stratify_36_of_35_returns :
  ~ fails (generate_matched_bins_imgs (catalog 5 35) 5 36) demo_seed.
Proof.
  intros [e E]. rewrite odd_stratified in E. discriminate.
Qed.

(** C7 does not hold as stated: the lure-bin cell of a returned trial is a
    string. *)
Lemma lure_bin_cell_is_a_string :
  generate_trials demo_table 5 5 demo_seed = Ok (demo_enc, demo_tests, demo_g3)
  /\ ~ Forall int_lure_bin_tuple demo_tests.
Proof.
  split; [exact demo_run|].
  intros F. inversion F as [|trial rest Hd _]; subst.
  destruct Hd as (l & r & t & z & E & _). discriminate.
Qed.

(** C8 does not hold as stated: on two bins of twenty images with five
    conditions and ten images per condition no grid is returned. *)
Lemma two_bins_of_twenty_give_no_grid :
  ~ returns (generate_matched_bins_imgs (catalog 2 20) 5 10) demo_seed.
Proof.
  intros [r E]. vm_compute in E. discriminate.
Qed.

(** * Further properties of the script *)

Lemma segments_column (table : list (Z * Z)) (ipb : nat) (bs : list Z)
      (segs : list (list Z)) :
  Forall2 (fun bin seg =>
             length seg = ipb /\ Forall (fun y => In (y, bin) table) seg)
          bs segs ->
  forall k b x,
    nth_error (Np.repeat_each bs ipb) k = Some b ->
    nth_error (concat segs) k = Some x ->
    In (x, b) table.
Proof.
  induction 1 as [|b0 s bs segs [Hlen Fs] F IH]; intros k b x Hb Hx.
  - destruct k; discriminate.
  - unfold Np.repeat_each in Hb. simpl in Hb, Hx.
    destruct (Nat.lt_ge_cases k ipb) as [Hlt|Hge].
    + rewrite nth_error_app1 in Hb by now rewrite repeat_length.
      rewrite nth_error_app1 in Hx by now rewrite Hlen.
      apply nth_error_In in Hb, Hx. apply repeat_spec in Hb. subst b.
      rewrite Forall_forall in Fs. auto.
    + rewrite nth_error_app2 in Hb by now rewrite repeat_length.
      rewrite nth_error_app2 in Hx by now rewrite Hlen.
      rewrite repeat_length in Hb. rewrite Hlen in Hx.
      eapply IH; eauto.
Qed.

Section StratifierExtras.

Context {G : Type} `{RandomSource G}.

(** X1.  The grid returned by the stratifier has [num_cond] rows and every
    row has [img_per_cond] columns. *)
Theorem grid_shape (table : list (Z * Z)) (nc ipc : nat) (g g' : G)
        (grid : list (list Z)) (bins : list Z) :
  generate_matched_bins_imgs table nc ipc g = Ok (grid, bins, g') ->
  length grid = nc /\ Forall (fun row => length row = ipc) grid.
Proof.
  intros E. split.
  - apply (grid_length _ _ _ _ E).
  - apply (grid_rows_length _ _ _ _ E).
Qed.

(** X2.  When the identifiers of the table are distinct and the number of
    bins divides [img_per_cond], no image is placed in two cells of the
    grid: the conditions share no image. *)
Theorem no_image_is_placed_twice (table : list (Z * Z)) (nc ipc : nat) (g g' : G)
        (grid : list (list Z)) (bins : list Z) :
  NoDup (map fst table) ->
  ipc mod length (bins_unique table) = 0 ->
  generate_matched_bins_imgs table nc ipc g = Ok (grid, bins, g') ->
  NoDup (concat grid).
Proof.
  intros Nt Hmod E. eapply grid_NoDup; eauto.
  pose proof (Nat.div_mod_eq ipc (length (bins_unique table))). lia.
Qed.

(** X3.  The bin vector is parallel to the grid columns it covers: in
    every row, the cell of column [k] is an image that the table puts in
    the bin that the bin vector gives for column [k]. *)
Theorem bin_vector_labels_every_row (table : list (Z * Z)) (nc ipc : nat)
        (g g' : G) (grid : list (list Z)) (bins : list Z)
        (row : list Z) (k : nat) (b x : Z) :
  generate_matched_bins_imgs table nc ipc g = Ok (grid, bins, g') ->
  In row grid ->
  nth_error bins k = Some b ->
  nth_error row k = Some x ->
  In (x, b) table.
Proof.
  intros E Hrow Hb Hx.
  destruct (grid_row_In _ _ _ _ E _ Hrow) as (segs & -> & F2).
  rewrite (lure_bins_eq _ _ _ _ E) in Hb.
  assert (Hk : k < length (concat segs)).
  { rewrite (@segments_length _ _ _ _ F2), <- repeat_each_length.
    apply nth_error_Some. congruence. }
  rewrite nth_error_app1 in Hx by assumption.
  eapply segments_column; eauto.
Qed.

End StratifierExtras.

(** X4.  On identifiers of [0 .. 999] the formatter loses nothing: two
    arrays of such identifiers with the same rendering are equal, whatever
    [digits] is.  From 1000 on this fails: 1000 is rendered like 100. *)
Theorem make_three_digits_injective_below_1000 :
  (forall (x y : list Z) (digits : nat),
      Forall (fun z => (0 <= z <= 999)%Z) x ->
      Forall (fun z => (0 <= z <= 999)%Z) y ->
      make_three_digits x digits = make_three_digits y digits ->
      x = y)
  /\ make_three_digits [1000%Z] 3 = make_three_digits [100%Z] 3.
Proof.
  split; [|reflexivity].
  intros x y digits Fx. revert y.
  induction Fx as [|a x Ha Fx IH]; intros y Fy E; destruct Fy as [|b y Hb Fy];
    simpl in E; try discriminate; [reflexivity|].
  inversion E as [[E1 E2]]. f_equal.
  - now apply fmt3_inj.
  - now apply IH.
Qed.

(** Witness of X1. *)
Lemma grid_shape_witness :
  generate_matched_bins_imgs demo_table 5 5 demo_seed
  = Ok (demo_grid, demo_bins, demo_g1)
  /\ length demo_grid = 5 /\ Forall (fun row => length row = 5) demo_grid.
Proof.
  split; [exact demo_stratified|].
  exact (grid_shape demo_table 5 5 demo_seed demo_stratified).
Defined.

(** Witness of X2. *)
Lemma no_image_is_placed_twice_witness :
  NoDup (map fst demo_table)
  /\ 5 mod length (bins_unique demo_table) = 0
  /\ generate_matched_bins_imgs demo_table 5 5 demo_seed
     = Ok (demo_grid, demo_bins, demo_g1)
  /\ NoDup (concat demo_grid).
Proof.
  assert (N : NoDup (map fst demo_table)).
  { apply (catalog_valid 5 5). simpl. lia. }
  assert (M : 5 mod length (bins_unique demo_table) = 0) by reflexivity.
  split; [exact N|]. split; [exact M|]. split; [exact demo_stratified|].
  exact (no_image_is_placed_twice demo_table 5 5 demo_seed N M demo_stratified).
Defined.

(** Witness of X3: row 0, column 0 of the demo grid. *)
Lemma bin_vector_labels_every_row_witness :
  generate_matched_bins_imgs demo_table 5 5 demo_seed
  = Ok (demo_grid, demo_bins, demo_g1)
  /\ In (hd [] demo_grid) demo_grid
  /\ nth_error demo_bins 0 = Some (hd 0%Z demo_bins)
  /\ nth_error (hd [] demo_grid) 0 = Some (hd 0%Z (hd [] demo_grid))
  /\ In (hd 0%Z (hd [] demo_grid), hd 0%Z demo_bins) demo_table.
Proof.
  assert (Hrow : In (hd [] demo_grid) demo_grid) by (simpl; now left).
  assert (Hb : nth_error demo_bins 0 = Some (hd 0%Z demo_bins)) by reflexivity.
  assert (Hx : nth_error (hd [] demo_grid) 0 = Some (hd 0%Z (hd [] demo_grid)))
    by reflexivity.
  split; [exact demo_stratified|]. split; [exact Hrow|].
  split; [exact Hb|]. split; [exact Hx|].
  exact (bin_vector_labels_every_row demo_table 5 5 demo_seed _ 0
           demo_stratified Hrow Hb Hx).
Defined.

(** ** When the builders and the pipeline return *)

Section BuilderExtras.

Context {G : Type} `{RandomSource G}.

Lemma test_trials_error (grid : list (list Z)) (bins : list Z) (ipc : nat)
      (g : G) (e : np_error) :
  generate_test_trials grid bins ipc g = Err e ->
  (length grid < 5 /\ e = IndexError) \/ (5 <= length grid /\ e = ValueError).
Proof.
  destruct grid as [|r0 [|r1 [|r2 [|r3 [|r4 rest]]]]];
    try (unfold generate_test_trials, bind, lift; simpl;
         intros E; inversion E; left; split; [lia | reflexivity]).
  unfold generate_test_trials. unfold bind at 1 2 3 4 5. simpl.
  unfold bind at 1.
  match goal with
  | |- context [mapM ?f ?l g] =>
      destruct (mapM_permutation_returns l g) as [[sh g1] E]
  end.
  rewrite E. unfold bind at 1, lift.
  match goal with
  | |- context [np_column_stack3 ?a ?b ?c] =>
      destruct (np_column_stack3 a b c) as [st|e0] eqn:Est
  end.
  - match goal with
    | |- context [permutation ?l ?s] =>
        destruct (permutation_returns l s) as (t & g2 & E' & _)
    end.
    rewrite E'. discriminate.
  - intros E2. inversion E2; subst. right. split; [lia|].
    unfold np_column_stack3 in Est.
    match type of Est with
    | (if ?c then _ else _) = _ => destruct c
    end; [discriminate | now inversion Est].
Qed.

(** X5.  On a rectangular grid of width [w] the test-trial builder returns
    exactly when the grid has at least five rows, [w] is [img_per_cond]
    and the bin vector has [img_per_cond] entries.  With fewer than five
    rows it raises an [IndexError]; otherwise a wrong width or a wrong
    bin-vector length makes the column stacking raise a [ValueError]. *)
Theorem test_trials_return_exactly_on_five_rows_of_matching_width
        (grid : list (list Z)) (bins : list Z) (ipc w : nat) (g : G) :
  Forall (fun r => length r = w) grid ->
  (returns (generate_test_trials grid bins ipc) g
   <-> 5 <= length grid /\ w = ipc /\ length bins = ipc)
  /\ (length grid < 5 -> generate_test_trials grid bins ipc g = Err IndexError)
  /\ (5 <= length grid -> w <> ipc \/ length bins <> ipc ->
      generate_test_trials grid bins ipc g = Err ValueError).
Proof.
  intros Rect.
  assert (Hiff : returns (generate_test_trials grid bins ipc) g
                 <-> 5 <= length grid /\ w = ipc /\ length bins = ipc).
  { split.
    - intros [[tests g'] E].
      eapply test_trials_struct in E; [|exact Rect].
      destruct E as (r0 & r1 & r2 & r3 & r4 & shA & shB & shC
                     & _ & _ & _ & _ & E4 & Hw & Hb & _).
      split; [|auto].
      assert (4 < length grid) by (apply nth_error_Some; congruence). lia.
    - intros (Hlen & -> & Hb). now apply test_trials_returns. }
  split; [exact Hiff|]. split.
  - intros Hlt.
    destruct (generate_test_trials grid bins ipc g) as [r|e] eqn:E.
    + exfalso. assert (R : returns (generate_test_trials grid bins ipc) g)
        by (exists r; exact E).
      apply Hiff in R. lia.
    + apply test_trials_error in E. destruct E as [[_ ->]|[Hge _]];
        [reflexivity | lia].
  - intros Hge Hne.
    destruct (generate_test_trials grid bins ipc g) as [r|e] eqn:E.
    + exfalso. assert (R : returns (generate_test_trials grid bins ipc) g)
        by (exists r; exact E).
      apply Hiff in R. lia.
    + apply test_trials_error in E. destruct E as [[Hlt _]|[_ ->]];
        [lia | reflexivity].
Qed.

(** X6.  The test-trial builder reads rows 0 to 4 only: any further row of
    the grid has no effect on what it returns or raises. *)
Theorem test_trials_read_five_rows_only (grid : list (list Z)) (bins : list Z)
        (ipc : nat) (g : G) :
  generate_test_trials grid bins ipc g
  = generate_test_trials (firstn 5 grid) bins ipc g.
Proof.
  destruct grid as [|r0 [|r1 [|r2 [|r3 [|r4 rest]]]]]; reflexivity.
Qed.

(** X7.  The encoding builder never raises.  With [num_cond = 1] the list
    is empty; with [num_cond = 0] the slice bound is -1 and every row but
    the last is encoded; with more conditions than the grid has rows every
    row, the last one included, is encoded. *)
Theorem enc_trials_edges (arr : list (list Z)) (g : G) :
  (forall nc, returns (generate_enc_trials arr nc) g)
  /\ (forall enc g', generate_enc_trials arr 1 g = Ok (enc, g') -> enc = [])
  /\ (forall enc g',
         generate_enc_trials arr 0 g = Ok (enc, g') ->
         Permutation (map (fun z => (fmt3 z ++ "a.jpg")%string)
                          (concat (removelast arr))) enc)
  /\ (forall nc enc g',
         length arr < nc ->
         generate_enc_trials arr nc g = Ok (enc, g') ->
         Permutation (map (fun z => (fmt3 z ++ "a.jpg")%string) (concat arr)) enc).
Proof.
  split; [intros nc; apply enc_trials_returns|]. split; [|split].
  - intros enc g' E. apply enc_trials_ok in E. simpl in E.
    unfold Np.slice_to in E. simpl in E.
    apply Permutation_nil in E. exact E.
  - intros enc g' E. apply enc_trials_ok in E.
    unfold Np.slice_to in E. simpl in E.
    rewrite removelast_firstn_len.
    replace (Nat.pred (length arr)) with (length arr - Pos.to_nat 1) by lia.
    exact E.
  - intros nc enc g' Hlt E. apply enc_trials_ok in E.
    unfold Np.slice_to in E.
    destruct (Z.ltb_spec (Z.of_nat nc - 1) 0); [lia|].
    rewrite firstn_all2 in E by lia. exact E.
Qed.

End BuilderExtras.

Lemma nth_In_firstn (A : Type) (d : A) (i n : nat) (l : list A) :
  i < n -> i < length l -> In (nth i l d) (firstn n l).
Proof.
  revert i n. induction l as [|x l IH]; intros i n Hn Hl; simpl in Hl; [lia|].
  destruct n as [|n]; [lia|]. destruct i as [|i]; simpl.
  - now left.
  - right. apply IH; lia.
Qed.

Section PipelineExtras.

Context {G : Type} `{RandomSource G}.

Lemma generate_trials_returns_iff (table : list (Z * Z)) (nc ipc : nat) (g : G) :
  returns (generate_trials table nc ipc) g
  <-> 2 <= length table
      /\ Forall (fun b => Nat.min ipc (count_bin table b)
                          = nc * (ipc / length (bins_unique table)))
                (bins_unique table)
      /\ ipc mod length (bins_unique table) = 0
      /\ 5 <= nc.
Proof.
  split.
  - intros [[[enc tests] g'] E].
    destruct (generate_trials_ok _ _ _ _ E) as (grid & bins & g1 & g2 & E1 & _ & E3).
    assert (R : returns (generate_matched_bins_imgs table nc ipc) g)
      by (eexists; exact E1).
    apply stratify_returns_iff in R. destruct R as [Hlen F].
    pose proof (grid_rows_length _ _ _ _ E1) as Rect.
    pose proof E3 as S. eapply test_trials_struct in S; [|exact Rect].
    destruct S as (r0 & r1 & r2 & r3 & r4 & shA & shB & shC
                   & _ & _ & _ & _ & E4 & _ & Hb & _).
    rewrite (lure_bins_eq _ _ _ _ E1), repeat_each_length in Hb.
    split; [assumption|]. split; [assumption|]. split.
    + pose proof (Nat.div_mod_eq ipc (length (bins_unique table))). lia.
    + rewrite <- (grid_length _ _ _ _ E1).
      assert (4 < length grid) by (apply nth_error_Some; congruence). lia.
  - intros (Hlen & F & Hmod & Hnc). apply generate_trials_returns; auto.
    pose proof (Nat.div_mod_eq ipc (length (bins_unique table))). lia.
Qed.

(** X8.  The whole pipeline returns exactly when the table has at least
    two rows, every bin keeps [num_cond * floor(img_per_cond / nbins)]
    images after truncation, the number of bins divides [img_per_cond]
    and there are at least five conditions. *)
Theorem pipeline_returns_iff (table : list (Z * Z)) (nc ipc : nat) (g : G) :
  returns (generate_trials table nc ipc) g
  <-> 2 <= length table
      /\ Forall (fun b => Nat.min ipc (count_bin table b)
                          = nc * (ipc / length (bins_unique table)))
                (bins_unique table)
      /\ ipc mod length (bins_unique table) = 0
      /\ 5 <= nc.
Proof. apply generate_trials_returns_iff. Qed.

(** X9.  If the pipeline returns some trial ([img_per_cond > 0]), the
    number of conditions is at most the number of distinct bins, and it
    equals it when every bin has at least [img_per_cond] images: the
    script only works with as many conditions as lure bins. *)
Theorem conditions_match_bins (table : list (Z * Z)) (nc ipc : nat) (g : G) :
  returns (generate_trials table nc ipc) g ->
  0 < ipc ->
  nc <= length (bins_unique table)
  /\ (Forall (fun b => ipc <= count_bin table b) (bins_unique table) ->
      nc = length (bins_unique table)).
Proof.
  intros R Hipc. apply generate_trials_returns_iff in R.
  destruct R as (Hlen & F & Hmod & Hnc).
  pose proof (Nat.div_mod_eq ipc (length (bins_unique table))) as D.
  pose proof (bins_unique_nonempty table ltac:(lia)) as Hnb.
  assert (Hex : exists b, In b (bins_unique table)).
  { destruct (bins_unique table) as [|b bu]; [simpl in Hnb; lia|].
    exists b. now left. }
  destruct Hex as (b & Hin).
  rewrite Forall_forall in F. specialize (F b Hin).
  set (nb := length (bins_unique table)) in *.
  set (ipb := ipc / nb) in *.
  assert (Hipb : 0 < ipb) by nia.
  split.
  - assert (nc * ipb <= nb * ipb) by lia. nia.
  - intros Fc. rewrite Forall_forall in Fc. specialize (Fc b Hin).
    assert (nc * ipb = nb * ipb) by lia. nia.
Qed.

(** X10.  The returned test list has [3 * img_per_cond] trials and each
    carries one of the three trial types. *)
Theorem test_list_size_and_types (table : list (Z * Z)) (nc ipc : nat) (g g' : G)
        (enc : list string) (tests : list (list np_scalar)) :
  generate_trials table nc ipc g = Ok (enc, tests, g') ->
  length tests = 3 * ipc
  /\ Forall (fun trial => In (trial_type_of trial) trial_types) tests.
Proof.
  intros E.
  destruct (generate_trials_ok _ _ _ _ E) as (grid & bins & g1 & g2 & E1 & _ & E3).
  pose proof (grid_rows_length _ _ _ _ E1) as Rect. split.
  - eapply test_trials_length; eauto.
  - apply Forall_forall. intros trial Hin.
    eapply test_trial_row in Hin; [|exact Rect|exact E3].
    destruct Hin as (t & ia & ib & k & x & y & b & Hp & _ & _ & _ & _ & Ht).
    assert (Ety : trial_type_of trial = t) by (destruct Ht as [-> | ->]; reflexivity).
    rewrite Ety. unfold pairing, trial_types in *. simpl in *.
    destruct Hp as [E0|[E0|[E0|[]]]]; inversion E0; auto.
Qed.

(** X11.  With six or more conditions the encoding list takes rows
    [0 .. num_cond - 2], so row 4, which the test builder uses as the
    unrelated foils of the D-X trials, is shown at encoding. *)
Theorem foil_row_is_encoded_from_six_conditions
        (table : list (Z * Z)) (nc ipc : nat) (g g1 g2 : G)
        (grid : list (list Z)) (bins : list Z) (enc : list string) (x : Z) :
  generate_matched_bins_imgs table nc ipc g = Ok (grid, bins, g1) ->
  generate_enc_trials grid nc g1 = Ok (enc, g2) ->
  6 <= nc ->
  In x (nth 4 grid []) ->
  In (fmt3 x ++ "a.jpg")%string enc.
Proof.
  intros E1 E2 Hnc Hx.
  pose proof (grid_length _ _ _ _ E1) as Hlen.
  pose proof (enc_trials_ok _ _ _ E2) as P.
  rewrite (slice_to_pred grid Hlen) in P.
  apply (Permutation_in _ P).
  apply (in_map (fun z => (fmt3 z ++ "a.jpg")%string)). apply in_concat.
  exists (nth 4 grid []). split; [|assumption].
  apply nth_In_firstn; lia.
Qed.

End PipelineExtras.

(** ** Targets and lures of the test trials *)

Lemma target_lure_of_row (fa fb : string) (t c : np_scalar) (p : list string) :
  ends_with "a.jpg" fa = true ->
  ends_with "a.jpg" fb = false ->
  Permutation [fa; fb] p ->
  target_of (map NpStr p ++ [t; c]) = fa
  /\ lure_of (map NpStr p ++ [t; c]) = fb.
Proof.
  intros Ha Hb P. apply Permutation_length_2_inv in P.
  destruct P as [-> | ->]; unfold target_of, lure_of, cell; simpl.
  - rewrite Ha. auto.
  - rewrite Hb. auto.
Qed.

Lemma stacked_block_targets (t : string) (ra : list Z) :
  forall (rb : list Z) (sh : list (list string)) (bins : list Z),
    Forall2 (@Permutation string) (labelled ra rb) sh ->
    length ra = length rb ->
    length rb = length bins ->
    map target_of (stacked_block t sh bins)
    = map (fun z => (fmt3 z ++ "a.jpg")%string) ra
    /\ map lure_of (stacked_block t sh bins)
       = map (fun z => (fmt3 z ++ "b.jpg")%string) rb.
Proof.
  induction ra as [|x ra IH]; intros [|y rb] sh [|b bins] F La Lb;
    simpl in La, Lb; try discriminate.
  - inversion F; subst. split; reflexivity.
  - unfold labelled in F. simpl in F. inversion F as [|? p ? sh' P F']; subst.
    destruct (IH rb sh' bins F' ltac:(lia) ltac:(lia)) as [IHa IHb].
    destruct (variant_suffix x) as (A1 & _).
    destruct (variant_suffix y) as (_ & _ & _ & B4 & _).
    destruct (target_lure_of_row (NpStr t) (NpStr (Np.str b)) A1 B4 P) as [T L].
    unfold stacked_block in *. simpl. rewrite T, L, IHa, IHb. split; reflexivity.
Qed.

Lemma NoDup_app_disjoint (A : Type) (a b : list A) (x : A) :
  NoDup (a ++ b) -> In x a -> In x b -> False.
Proof.
  induction a as [|y a IH]; simpl; intros N Ha Hb; [destruct Ha|].
  inversion N as [|? ? Hn N']; subst.
  destruct Ha as [->|Ha]; [apply Hn, in_or_app; now right | eauto].
Qed.

Lemma NoDup_concat_rows_lt (A : Type) (l : list (list A)) :
  NoDup (concat l) ->
  forall i j x, i < j -> In x (nth i l []) -> In x (nth j l []) -> False.
Proof.
  induction l as [|r l IH]; intros N i j x Hij Hi Hj.
  - destruct i; destruct Hi.
  - simpl in N. destruct j as [|j]; [lia|]. destruct i as [|i]; simpl in Hi, Hj.
    + apply (NoDup_app_disjoint _ _ x N Hi).
      destruct (nth_In_or_nil l j) as [Hin|Hnil].
      * apply in_concat. eauto.
      * rewrite Hnil in Hj. destruct Hj.
    + apply NoDup_app_remove_l in N. apply (IH N i j x); auto. lia.
Qed.

Lemma NoDup_concat_rows (A : Type) (l : list (list A)) (i j : nat) (x : A) :
  NoDup (concat l) -> i <> j ->
  In x (nth i l []) -> In x (nth j l []) -> False.
Proof.
  intros N Hij Hi Hj. destruct (Nat.lt_ge_cases i j).
  - eapply NoDup_concat_rows_lt; eauto.
  - assert (j < i) by lia. eapply NoDup_concat_rows_lt; eauto.
Qed.

Section TargetExtras.

Context {G : Type} `{RandomSource G}.

Lemma targets_and_lures (grid : list (list Z)) (bins : list Z) (ipc : nat)
      (g g' : G) (tests : list (list np_scalar)) :
  Forall (fun r => length r = ipc) grid ->
  generate_test_trials grid bins ipc g = Ok (tests, g') ->
  Permutation (map target_of tests)
              (map (fun z => (fmt3 z ++ "a.jpg")%string)
                   (nth 0 grid [] ++ nth 1 grid [] ++ nth 3 grid []))
  /\ Permutation (map lure_of tests)
                 (map (fun z => (fmt3 z ++ "b.jpg")%string)
                      (nth 0 grid [] ++ nth 2 grid [] ++ nth 4 grid [])).
Proof.
  intros Rect Hrun.
  pose proof Hrun as S.
  eapply test_trials_struct in S; [|exact Rect].
  destruct S as (r0 & r1 & r2 & r3 & r4 & shA & shB & shC
                 & E0 & E1 & E2 & E3 & E4 & _ & Hb & FA & FB & FC & P).
  rewrite Forall_forall in Rect.
  pose proof (Rect _ (nth_error_In _ _ E0)) as W0.
  pose proof (Rect _ (nth_error_In _ _ E1)) as W1.
  pose proof (Rect _ (nth_error_In _ _ E2)) as W2.
  pose proof (Rect _ (nth_error_In _ _ E3)) as W3.
  pose proof (Rect _ (nth_error_In _ _ E4)) as W4.
  apply (nth_error_nth _ _ []) in E0, E1, E2, E3, E4.
  rewrite E0, E1, E2, E3, E4.
  destruct (stacked_block_targets "A-A'" r0 r0 bins FA) as [TA LA]; try lia.
  destruct (stacked_block_targets "B-C'" r1 r2 bins FB) as [TB LB]; try lia.
  destruct (stacked_block_targets "D-X" r3 r4 bins FC) as [TC LC]; try lia.
  split.
  - rewrite <- (Permutation_map target_of P).
    rewrite !map_app, TA, TB, TC. reflexivity.
  - rewrite <- (Permutation_map lure_of P).
    rewrite !map_app, LA, LB, LC. reflexivity.
Qed.

(** X12.  Over the test list, the studied images (the files ending in
    [a.jpg]) are exactly the cells of grid rows 0, 1 and 3, each once, and
    the other images are exactly the cells of rows 0, 2 and 4 with suffix
    [b.jpg], each once. *)
Theorem every_column_is_tested_once_per_type
        (table : list (Z * Z)) (nc ipc : nat) (g g1 g2 g3 : G)
        (grid : list (list Z)) (bins : list Z) (tests : list (list np_scalar)) :
  generate_matched_bins_imgs table nc ipc g = Ok (grid, bins, g1) ->
  generate_test_trials grid bins ipc g2 = Ok (tests, g3) ->
  Permutation (map target_of tests)
              (map (fun z => (fmt3 z ++ "a.jpg")%string)
                   (nth 0 grid [] ++ nth 1 grid [] ++ nth 3 grid []))
  /\ Permutation (map lure_of tests)
                 (map (fun z => (fmt3 z ++ "b.jpg")%string)
                      (nth 0 grid [] ++ nth 2 grid [] ++ nth 4 grid [])).
Proof.
  intros E1 E3. eapply targets_and_lures; eauto.
  apply (grid_rows_length _ _ _ _ E1).
Qed.

(** X13.  Whenever the pipeline returns, the studied image of every test
    trial is in the encoding list. *)
Theorem every_test_target_was_encoded
        (table : list (Z * Z)) (nc ipc : nat) (g g' : G)
        (enc : list string) (tests : list (list np_scalar)) :
  generate_trials table nc ipc g = Ok (enc, tests, g') ->
  Forall (fun trial => In (target_of trial) enc) tests.
Proof.
  intros E.
  destruct (generate_trials_ok _ _ _ _ E) as (grid & bins & g1 & g2 & E1 & E2 & E3).
  pose proof (grid_rows_length _ _ _ _ E1) as Rect.
  pose proof (grid_length _ _ _ _ E1) as Hlen.
  assert (PT : Permutation (map target_of tests)
                 (map (fun z => (fmt3 z ++ "a.jpg")%string)
                      (nth 0 grid [] ++ nth 1 grid [] ++ nth 3 grid [])))
    by (eapply targets_and_lures; eauto).
  assert (Hnc : 5 <= nc).
  { pose proof E3 as S. eapply test_trials_struct in S; [|exact Rect].
    destruct S as (r0 & r1 & r2 & r3 & r4 & _ & _ & _ & _ & _ & _ & _ & E4 & _).
    rewrite <- Hlen.
    assert (4 < length grid) by (apply nth_error_Some; congruence). lia. }
  pose proof (enc_trials_ok _ _ _ E2) as P.
  rewrite (slice_to_pred grid Hlen) in P.
  apply Forall_forall. intros trial Hin.
  apply (in_map target_of) in Hin.
  apply (Permutation_in _ PT) in Hin.
  apply in_map_iff in Hin. destruct Hin as (x & <- & Hx).
  apply (Permutation_in _ P).
  apply (in_map (fun z => (fmt3 z ++ "a.jpg")%string)). apply in_concat.
  assert (Hrow : forall i, i < 4 -> In x (nth i grid []) ->
                           exists row, In row (firstn (nc - 1) grid) /\ In x row).
  { intros i Hi Hxi. exists (nth i grid []). split; [|assumption].
    apply nth_In_firstn; lia. }
  apply in_app_or in Hx. destruct Hx as [Hx|Hx]; [apply (Hrow 0); auto; lia|].
  apply in_app_or in Hx. destruct Hx as [Hx|Hx];
    [apply (Hrow 1) | apply (Hrow 3)]; auto; lia.
Qed.

(** X14.  For a catalogue of distinct identifiers in [0 .. 999] whose bin
    count divides [img_per_cond]: an A-A' trial shows one identifier
    twice, a B-C' or D-X trial shows two different identifiers. *)
Theorem only_corresponding_trials_repeat_an_identifier
        (table : list (Z * Z)) (nc ipc : nat) (g g1 g2 g3 : G)
        (grid : list (list Z)) (bins : list Z)
        (tests : list (list np_scalar)) (trial : list np_scalar) :
  valid_catalog table ->
  ipc mod length (bins_unique table) = 0 ->
  generate_matched_bins_imgs table nc ipc g = Ok (grid, bins, g1) ->
  generate_test_trials grid bins ipc g2 = Ok (tests, g3) ->
  In trial tests ->
  (trial_type_of trial = "A-A'"%string
   -> image_id (cell 0 trial) = image_id (cell 1 trial))
  /\ (trial_type_of trial <> "A-A'"%string
      -> image_id (cell 0 trial) <> image_id (cell 1 trial)).
Proof.
  intros [Nt Rng] Hmod E1 E3 Hin.
  pose proof (grid_rows_length _ _ _ _ E1) as Rect.
  assert (Hdiv : length (bins_unique table)
                 * (ipc / length (bins_unique table)) = ipc).
  { pose proof (Nat.div_mod_eq ipc (length (bins_unique table))). lia. }
  assert (N : NoDup (concat grid)) by (eapply grid_NoDup; eauto).
  eapply test_trial_row in Hin; [|exact Rect|exact E3].
  destruct Hin as (t & ia & ib & k & x & y & b & Hp & _ & Hx & Hy & _ & Ht).
  destruct (variant_suffix x) as (_ & _ & _ & _ & Ia & _).
  destruct (variant_suffix y) as (_ & _ & _ & _ & _ & Ib).
  assert (Ety : trial_type_of trial = t) by (destruct Ht as [-> | ->]; reflexivity).
  assert (Hids : (image_id (cell 0 trial) = fmt3 x /\ image_id (cell 1 trial) = fmt3 y)
                 \/ (image_id (cell 0 trial) = fmt3 y /\ image_id (cell 1 trial) = fmt3 x)).
  { destruct Ht as [-> | ->]; unfold cell; simpl; auto. }
  assert (Hrange : forall i z, nth_error (nth i grid []) k = Some z ->
                               (0 <= z <= 999)%Z).
  { intros i z Hz. apply nth_error_In in Hz.
    destruct (nth_In_or_nil grid i) as [Hrow|Hnil];
      [|rewrite Hnil in Hz; destruct Hz].
    assert (Hc : exists c, In (z, c) table) by (eapply grid_cell_full; eauto).
    destruct Hc as (c & Hc). rewrite Forall_forall in Rng. apply (Rng _ Hc). }
  rewrite Ety. unfold pairing in Hp. simpl in Hp.
  destruct Hp as [E0|[E0|[E0|[]]]]; inversion E0; subst t ia ib; split;
    try (intros; discriminate); try (intros Hne; now contradiction Hne).
  - intros _. assert (x = y) by congruence. subst y.
    destruct Hids as [[-> ->]|[-> ->]]; reflexivity.
  - intros _ Heq.
    assert (Exy : fmt3 x = fmt3 y)
      by (destruct Hids as [[A B]|[A B]]; congruence).
    apply fmt3_inj in Exy; eauto. subst y.
    assert (D : 1 <> 2) by lia.
    eapply (@NoDup_concat_rows _ grid 1 2 x N D); eapply nth_error_In; eauto.
  - intros _ Heq.
    assert (Exy : fmt3 x = fmt3 y)
      by (destruct Hids as [[A B]|[A B]]; congruence).
    apply fmt3_inj in Exy; eauto. subst y.
    assert (D : 3 <> 4) by lia.
    eapply (@NoDup_concat_rows _ grid 3 4 x N D); eapply nth_error_In; eauto.
Qed.

End TargetExtras.

(** ** The check at the end of the script *)

Lemma text_insert_unique_In (x y : string) (l : list string) :
  In y (NpText.insert_unique x l) <-> y = x \/ In y l.
Proof.
  induction l as [|z zs IH]; simpl.
  - intuition.
  - destruct (String.compare x z) eqn:C; simpl.
    + apply String.compare_eq_iff in C. subst. intuition.
    + intuition.
    + rewrite IH. intuition.
Qed.

Lemma text_unique_In (y : string) (l : list string) :
  In y (NpText.unique l) <-> In y l.
Proof.
  induction l as [|x xs IH]; simpl; [tauto|].
  rewrite text_insert_unique_In, IH. intuition.
Qed.

Lemma text_insert_unique_sorted (x : string) (l : list string) :
  StronglySorted String_as_OT.lt l ->
  StronglySorted String_as_OT.lt (NpText.insert_unique x l).
Proof.
  induction 1 as [|z zs S IH F]; simpl.
  - repeat constructor.
  - destruct (String.compare x z) eqn:C.
    + constructor; assumption.
    + apply String_as_OT.cmp_lt in C.
      constructor; [constructor; assumption|].
      constructor; [assumption|].
      eapply Forall_impl; [|exact F]. simpl. intros a Ha.
      eapply String_as_OT.lt_trans; eauto.
    + assert (C' : String.compare z x = Lt).
      { rewrite String.compare_antisym in C.
        destruct (String.compare z x); simpl in C; congruence. }
      apply String_as_OT.cmp_lt in C'.
      constructor; [assumption|].
      rewrite Forall_forall in *. intros y Hy.
      apply text_insert_unique_In in Hy. destruct Hy as [->|Hy]; auto.
Qed.

Lemma text_unique_sorted (l : list string) :
  StronglySorted String_as_OT.lt (NpText.unique l).
Proof.
  induction l; simpl; [constructor | now apply text_insert_unique_sorted].
Qed.

Lemma text_lt_irrefl (s : string) : ~ String_as_OT.lt s s.
Proof. intros L. apply String_as_OT.lt_not_eq in L. now apply L. Qed.

Lemma text_sorted_ext (l1 l2 : list string) :
  StronglySorted String_as_OT.lt l1 ->
  StronglySorted String_as_OT.lt l2 ->
  (forall x, In x l1 <-> In x l2) ->
  l1 = l2.
Proof.
  intros S1. revert l2.
  induction S1 as [|a l1 S1 IH F1]; intros l2 S2 E.
  - destruct l2 as [|b l2]; [reflexivity|].
    exfalso. apply (proj2 (E b)). now left.
  - destruct S2 as [|b l2 S2 F2].
    + exfalso. apply (proj1 (E a)). now left.
    + rewrite Forall_forall in F1, F2.
      assert (Hab : a = b).
      { destruct (proj1 (E a) (or_introl eq_refl)) as [Hb|Hb]; [now symmetry|].
        destruct (proj2 (E b) (or_introl eq_refl)) as [Ha|Ha]; [assumption|].
        exfalso. apply (@text_lt_irrefl a).
        eapply String_as_OT.lt_trans; [apply (F1 _ Ha) | apply (F2 _ Hb)]. }
      subst b. f_equal. apply IH; [assumption|].
      intros x. split; intros Hx.
      * destruct (proj1 (E x) (or_intror Hx)) as [<-|Hx']; [|assumption].
        exfalso. apply (@text_lt_irrefl a), F1, Hx.
      * destruct (proj2 (E x) (or_intror Hx)) as [<-|Hx']; [|assumption].
        exfalso. apply (@text_lt_irrefl a), F2, Hx.
Qed.

(** [np.unique] depends on the values present only. *)
Lemma text_unique_ext (l1 l2 : list string) :
  (forall x, In x l1 <-> In x l2) -> NpText.unique l1 = NpText.unique l2.
Proof.
  intros E. apply text_sorted_ext; try apply text_unique_sorted.
  intros x. rewrite !text_unique_In. apply E.
Qed.

Lemma repeat_each_In (A : Type) (l : list A) (n : nat) (x : A) :
  In x (Np.repeat_each l n) -> In x l.
Proof.
  unfold Np.repeat_each. intros Hx. apply in_flat_map in Hx.
  destruct Hx as (y & Hy & Hx). apply repeat_spec in Hx. now subst.
Qed.

Lemma In_repeat_each (A : Type) (l : list A) (n : nat) (x : A) :
  0 < n -> In x l -> In x (Np.repeat_each l n).
Proof.
  intros Hn Hx. unfold Np.repeat_each. apply in_flat_map. exists x.
  split; [assumption|]. destruct n; [lia|]. now left.
Qed.

Lemma count_occ_repeat_each (bu : list Z) (n : nat) (b : Z) :
  NoDup bu -> In b bu -> count_occ Z.eq_dec (Np.repeat_each bu n) b = n.
Proof.
  induction 1 as [|a bu Ha N IH]; intros Hb; [destruct Hb|].
  unfold Np.repeat_each in *. simpl. rewrite count_occ_app.
  destruct (Z.eq_dec b a) as [->|Hne].
  - rewrite count_occ_repeat_eq by reflexivity.
    assert (Z0 : count_occ Z.eq_dec (flat_map (fun x => repeat x n) bu) a = 0).
    { apply count_occ_not_In. intros Hin. apply Ha.
      now apply (@repeat_each_In _ bu n a). }
    rewrite Z0. lia.
  - rewrite count_occ_repeat_neq by assumption.
    destruct Hb as [->|Hb]; [congruence|]. now rewrite IH.
Qed.

Lemma stacked_block_cells (t : string) (sh : list (list string)) (bins : list Z) :
  Forall (fun p => length p = 2) sh ->
  length sh = length bins ->
  map (cell 3) (stacked_block t sh bins) = map Np.str bins
  /\ Forall (fun trial => cell 2 trial = t) (stacked_block t sh bins).
Proof.
  intros F. revert bins. induction F as [|p sh Hp F IH]; intros [|b bins] E;
    unfold stacked_block in *; simpl in *; try discriminate.
  - split; [reflexivity | constructor].
  - destruct (IH bins ltac:(lia)) as [IH1 IH2].
    destruct p as [|l [|r [|]]]; try discriminate.
    split; [simpl; now rewrite IH1 | constructor; [reflexivity | assumption]].
Qed.

Section SelfCheck.

Context {G : Type} `{RandomSource G}.

Lemma trials_of_stacked (grid : list (list Z)) (bins : list Z) (ipc : nat)
      (g g' : G) (tests : list (list np_scalar)) (t : string) :
  Forall (fun r => length r = ipc) grid ->
  generate_test_trials grid bins ipc g = Ok (tests, g') ->
  In t trial_types ->
  exists sh,
    Forall (fun p => length p = 2) sh
    /\ length sh = length bins
    /\ Permutation (stacked_block t sh bins) (trials_of t tests).
Proof.
  intros Rect Hrun Ht.
  pose proof Hrun as S.
  eapply test_trials_struct in S; [|exact Rect].
  destruct S as (r0 & r1 & r2 & r3 & r4 & shA & shB & shC
                 & E0 & E1 & E2 & E3 & E4 & Hw & Hb & FA & FB & FC & P).
  pose proof (shuffled_pairs_length _ _ FA) as PA.
  pose proof (shuffled_pairs_length _ _ FB) as PB.
  pose proof (shuffled_pairs_length _ _ FC) as PC.
  pose proof (Forall2_length FA) as LA. rewrite labelled_length in LA.
  pose proof (Forall2_length FB) as LB. rewrite labelled_length in LB.
  pose proof (Forall2_length FC) as LC. rewrite labelled_length in LC.
  rewrite Forall_forall in Rect.
  pose proof (Rect _ (nth_error_In _ _ E0)) as W0.
  pose proof (Rect _ (nth_error_In _ _ E1)) as W1.
  pose proof (Rect _ (nth_error_In _ _ E2)) as W2.
  pose proof (Rect _ (nth_error_In _ _ E3)) as W3.
  pose proof (Rect _ (nth_error_In _ _ E4)) as W4.
  pose proof (stacked_block_types "A-A'" bins PA) as TA.
  pose proof (stacked_block_types "B-C'" bins PB) as TB.
  pose proof (stacked_block_types "D-X" bins PC) as TC.
  assert (Hsel : forall t' blk (b : bool),
             Forall (fun trial => trial_type_of trial = t') blk ->
             String.eqb t' t = b ->
             Forall (fun trial => String.eqb (trial_type_of trial) t = b) blk).
  { intros t' blk b F Eb. eapply Forall_impl; [|exact F].
    simpl. intros trial ->. exact Eb. }
  unfold trials_of.
  pose proof (Permutation_filter
                (fun trial => String.eqb (trial_type_of trial) t) P) as PF.
  rewrite !filter_app in PF.
  destruct Ht as [<-|[<-|[<-|[]]]].
  - rewrite (filter_all _ (Hsel _ _ true TA eq_refl)) in PF.
    rewrite (filter_none _ (Hsel _ _ false TB eq_refl)) in PF.
    rewrite (filter_none _ (Hsel _ _ false TC eq_refl)) in PF.
    rewrite !app_nil_r in PF. exists shA. repeat split; auto; lia.
  - rewrite (filter_none _ (Hsel _ _ false TA eq_refl)) in PF.
    rewrite (filter_all _ (Hsel _ _ true TB eq_refl)) in PF.
    rewrite (filter_none _ (Hsel _ _ false TC eq_refl)) in PF.
    rewrite !app_nil_r in PF. simpl in PF. exists shB. repeat split; auto; lia.
  - rewrite (filter_none _ (Hsel _ _ false TA eq_refl)) in PF.
    rewrite (filter_none _ (Hsel _ _ false TB eq_refl)) in PF.
    rewrite (filter_all _ (Hsel _ _ true TC eq_refl)) in PF.
    simpl in PF. exists shC. repeat split; auto; lia.
Qed.

Lemma tests_type_cell (grid : list (list Z)) (bins : list Z) (ipc : nat)
      (g g' : G) (tests : list (list np_scalar)) (trial : list np_scalar) :
  Forall (fun r => length r = ipc) grid ->
  generate_test_trials grid bins ipc g = Ok (tests, g') ->
  In trial tests ->
  cell 2 trial = trial_type_of trial /\ In (trial_type_of trial) trial_types.
Proof.
  intros Rect Hrun Hin.
  eapply test_trial_row in Hin; [|exact Rect|exact Hrun].
  destruct Hin as (t & ia & ib & k & x & y & b & Hp & _ & _ & _ & _ & Ht).
  assert (Htype : In t trial_types).
  { unfold pairing, trial_types in *. simpl in *.
    destruct Hp as [E|[E|[E|[]]]]; inversion E; auto. }
  destruct Ht as [-> | ->]; split; try reflexivity; exact Htype.
Qed.

Lemma self_check_of_run (table : list (Z * Z)) (nc ipc : nat) (g g' : G)
      (enc : list string) (tests : list (list np_scalar)) :
  generate_trials table nc ipc g = Ok (enc, tests, g') ->
  0 < ipc ->
  self_check tests = balanced_report table ipc.
Proof.
  intros E Hipc.
  destruct (generate_trials_ok _ _ _ _ E) as (grid & bins & g1 & g2 & E1 & _ & E3).
  pose proof (grid_rows_length _ _ _ _ E1) as Rect.
  pose proof (lure_bins_eq _ _ _ _ E1) as Hbins.
  set (bu := bins_unique table) in *. set (ipb := ipc / length bu) in *.
  assert (Hcov : length bu * ipb = ipc).
  { pose proof E3 as S. eapply test_trials_struct in S; [|exact Rect].
    destruct S as (r0 & r1 & r2 & r3 & r4 & _ & _ & _
                   & _ & _ & _ & _ & _ & _ & Hb & _).
    rewrite Hbins, repeat_each_length in Hb. exact Hb. }
  assert (Hipb : 0 < ipb) by nia.
  assert (Hcell : forall trial, In trial tests ->
                    cell 2 trial = trial_type_of trial
                    /\ In (trial_type_of trial) trial_types)
    by (intros; eapply tests_type_cell; eauto).
  assert (Hblock : forall t, In t trial_types ->
                     length (trials_of t tests) = ipc
                     /\ Permutation (map lure_bin_of (trials_of t tests))
                                    (map Some bins))
    by (intros; eapply trials_of_block; eauto).
  assert (Hst : forall t, In t trial_types ->
                  exists sh,
                    Forall (fun p => length p = 2) sh
                    /\ length sh = length bins
                    /\ Permutation (stacked_block t sh bins) (trials_of t tests))
    by (intros; eapply trials_of_stacked; eauto).
  assert (Hcol : forall t, In t trial_types ->
                   filter (fun r => String.eqb (cell 2 r) t) tests = trials_of t tests).
  { intros t Ht. unfold trials_of. apply filter_ext_in. intros trial Hin.
    destruct (Hcell _ Hin) as [-> _]. reflexivity. }
  assert (Htypes : NpText.unique (map (cell 2) tests) = trial_types).
  { change trial_types with (NpText.unique trial_types).
    apply text_unique_ext. intros x. split.
    - intros Hx. apply in_map_iff in Hx. destruct Hx as (trial & <- & Hin).
      destruct (Hcell _ Hin) as [-> Ht]. exact Ht.
    - intros Hx.
      destruct (Hblock x Hx) as [Hlen _].
      destruct (trials_of x tests) as [|trial rest] eqn:Et; [simpl in Hlen; lia|].
      assert (Hin : In trial (trials_of x tests)) by (rewrite Et; now left).
      unfold trials_of in Hin. apply filter_In in Hin. destruct Hin as [Hin Hty].
      apply String.eqb_eq in Hty. apply in_map_iff. exists trial.
      destruct (Hcell _ Hin) as [-> _]. auto. }
  assert (Hrep : forall t, In t trial_types ->
             NpText.unique_counts
               (map (cell 3) (filter (fun r => String.eqb (cell 2 r) t) tests))
             = (NpText.unique (map Np.str bu),
                map (fun _ => ipb) (NpText.unique (map Np.str bu)))).
  { intros t Ht. rewrite (Hcol t Ht).
    destruct (Hst t Ht) as (sh & F2 & Lsh & P).
    destruct (stacked_block_cells t bins F2 Lsh) as [Hcells _].
    assert (PC : Permutation (map (cell 3) (trials_of t tests)) (map Np.str bins)).
    { rewrite <- Hcells. symmetry. now apply Permutation_map. }
    unfold NpText.unique_counts.
    assert (Hu : NpText.unique (map (cell 3) (trials_of t tests))
                 = NpText.unique (map Np.str bu)).
    { apply text_unique_ext. intros x. split; intros Hx.
      - apply (Permutation_in _ PC) in Hx. rewrite Hbins in Hx.
        apply in_map_iff in Hx. destruct Hx as (b & <- & Hb).
        apply in_map. eapply repeat_each_In; eauto.
      - apply (Permutation_in _ (Permutation_sym PC)). rewrite Hbins.
        apply in_map_iff in Hx. destruct Hx as (b & <- & Hb).
        apply in_map. now apply In_repeat_each. }
    rewrite Hu. f_equal.
    apply map_ext_in. intros s Hs. apply -> text_unique_In in Hs.
    apply in_map_iff in Hs. destruct Hs as (b & <- & Hb).
    rewrite (proj1 (Permutation_count_occ string_dec _ _) PC).
    rewrite <- (count_occ_map Np.str Z.eq_dec string_dec str_inj).
    rewrite Hbins. apply count_occ_repeat_each; [apply unique_NoDup | exact Hb]. }
  unfold self_check, balanced_report. rewrite Htypes.
  fold bu. fold ipb.
  unfold trial_types in *. simpl map.
  rewrite !Hrep by (simpl; auto). reflexivity.
Qed.

(** X15.  The check at the end of the script.  On the test list of any
    run of the pipeline with [img_per_cond > 0] the loop reports the three
    trial types in the order A-A', B-C', D-X and, for each of them, the same
    bins (every bin of the table) and the same count
    [img_per_cond / nbins] for every bin.  With the script's own defaults
    (5 conditions, 35 images per condition) every count is [35 / nbins]. *)
Theorem self_check_reports_a_balanced_design :
  (forall (table : list (Z * Z)) (nc ipc : nat) (g g' : G)
          (enc : list string) (tests : list (list np_scalar)),
      generate_trials table nc ipc g = Ok (enc, tests, g') ->
      0 < ipc ->
      self_check tests = balanced_report table ipc)
  /\ (forall (table : list (Z * Z)) (g g' : G)
             (report : list (string * (list string * list nat))),
         script_check table g = Ok (report, g') ->
         report = balanced_report table 35).
Proof.
  split.
  - apply self_check_of_run.
  - intros table g g' report E. unfold script_check in E.
    apply bind_ok in E. destruct E as ([enc tests] & g1 & E & R).
    apply ret_ok in R. destruct R as [-> _].
    eapply self_check_of_run; eauto. lia.
Qed.

End SelfCheck.

(** ** The grid is filled row-major from one shuffle per bin *)

Lemma nth_chunks (A : Type) (r c : nat) :
  forall (i : nat) (l : list A),
    i < r -> nth i (Np.chunks r c l) [] = firstn c (skipn (i * c) l).
Proof.
  induction r as [|r IH]; intros i l Hi; [lia|].
  destruct i as [|i]; simpl.
  - reflexivity.
  - rewrite IH by lia. rewrite skipn_skipn. f_equal. f_equal. lia.
Qed.

Lemma firstn_skipn_firstn (A : Type) (c n m : nat) (l : list A) :
  n + c <= m -> firstn c (skipn n (firstn m l)) = firstn c (skipn n l).
Proof.
  intros Hle. rewrite skipn_firstn_comm, firstn_firstn.
  f_equal. lia.
Qed.

Lemma blocks_row_major (table : list (Z * Z)) (nc ipc ipb : nat) (bs : list Z)
      (blks : list (list (list Z))) :
  Forall2 (block_of (map fst table) (map snd table) nc ipc ipb) bs blks ->
  exists shs,
    Forall2 (fun b sh => Permutation (images_of_bin table b) sh) bs shs
    /\ forall i, i < nc ->
                 hrow i blks
                 = map (fun sh => firstn ipb (skipn (i * ipb) sh)) shs.
Proof.
  induction 1 as [|b blk bs blks Hb F IH].
  - exists []. split; [constructor | reflexivity].
  - destruct IH as (shs & F2 & Hrows).
    destruct Hb as (sh & P & Elen & ->).
    rewrite select_table in P. exists (sh :: shs). split.
    + constructor; assumption.
    + intros i Hi. simpl. rewrite (Hrows i Hi). f_equal.
      rewrite nth_chunks by assumption.
      apply firstn_skipn_firstn.
      rewrite length_firstn in Elen. nia.
Qed.

Section RowMajor.

Context {G : Type} `{RandomSource G}.

(** X16.  The stratifier draws one rearrangement per bin, bins taken in
    ascending order, and deals it row-major: with [w = img_per_cond /
    nbins], row [i] of the grid is, bin after bin, the [w] images at
    positions [i * w .. i * w + w - 1] of that bin's rearrangement,
    followed by the uncovered zero columns.  Only the first
    [num_cond * w] images of each rearrangement are used. *)
Theorem grid_is_dealt_row_major (table : list (Z * Z)) (nc ipc : nat) (g g' : G)
        (grid : list (list Z)) (bins : list Z) :
  generate_matched_bins_imgs table nc ipc g = Ok (grid, bins, g') ->
  let bu := bins_unique table in
  let w := ipc / length bu in
  exists shs,
    Forall2 (fun b sh => Permutation (images_of_bin table b) sh) bu shs
    /\ forall i, i < nc ->
                 nth i grid []
                 = concat (map (fun sh => firstn w (skipn (i * w) sh)) shs)
                     ++ repeat 0%Z (ipc - length bu * w).
Proof.
  intros E bu w.
  destruct (stratify_struct _ _ _ _ E) as (_ & _ & blks & F2 & ->).
  pose proof (@blocks_length _ _ nc ipc _ _ _ F2) as Fl.
  destruct (@blocks_row_major _ _ _ _ _ _ F2) as (shs & FP & Hrows).
  exists shs. split; [exact FP|].
  intros i Hi.
  rewrite happend_nth, fold_happend_nth.
  - rewrite zeros_nth by assumption. rewrite nth_repeat. simpl.
    rewrite (Hrows i Hi). reflexivity.
  - now rewrite repeat_length.
  - rewrite fold_happend_length; rewrite ?repeat_length, ?zeros_length; auto.
Qed.

End RowMajor.

(** * The further properties on the concrete runs *)

Lemma six_stratified :
  generate_matched_bins_imgs (catalog 6 6) 6 6 demo_seed
  = Ok (six_grid, six_bins, six_g1).
Proof. vm_compute. reflexivity. Qed.

Lemma six_encoded :
  generate_enc_trials six_grid 6 six_g1 = Ok (six_enc, six_g2).
Proof. vm_compute. reflexivity. Qed.

Lemma demo_grid_rectangular : Forall (fun r => length r = 5) demo_grid.
Proof. repeat constructor. Qed.

(** Witness of X5 on the demo grid. *)
Lemma test_trials_return_witness :
  Forall (fun r => length r = 5) demo_grid
  /\ (returns (generate_test_trials demo_grid demo_bins 5) demo_g2
      <-> 5 <= length demo_grid /\ 5 = 5 /\ length demo_bins = 5).
Proof.
  split; [exact demo_grid_rectangular|].
  exact (proj1 (test_trials_return_exactly_on_five_rows_of_matching_width
                  demo_bins 5 demo_g2 demo_grid_rectangular)).
Defined.

(** Witness of X9 on the demo run. *)
Lemma conditions_match_bins_witness :
  returns (generate_trials demo_table 5 5) demo_seed
  /\ 0 < 5
  /\ 5 <= length (bins_unique demo_table)
  /\ (Forall (fun b => 5 <= count_bin demo_table b) (bins_unique demo_table)
      -> 5 = length (bins_unique demo_table)).
Proof.
  assert (R : returns (generate_trials demo_table 5 5) demo_seed)
    by (eexists; exact demo_run).
  assert (P : 0 < 5) by lia.
  split; [exact R|]. split; [exact P|].
  exact (conditions_match_bins R P).
Defined.

(** Witness of X10 on the demo run. *)
Lemma test_list_size_and_types_witness :
  generate_trials demo_table 5 5 demo_seed = Ok (demo_enc, demo_tests, demo_g3)
  /\ length demo_tests = 3 * 5
  /\ Forall (fun trial => In (trial_type_of trial) trial_types) demo_tests.
Proof.
  split; [exact demo_run|].
  exact (test_list_size_and_types demo_table 5 5 demo_seed demo_run).
Defined.

(** Witness of X11: six conditions, first image of row 4. *)
Lemma foil_row_is_encoded_witness :
  generate_matched_bins_imgs (catalog 6 6) 6 6 demo_seed
  = Ok (six_grid, six_bins, six_g1)
  /\ generate_enc_trials six_grid 6 six_g1 = Ok (six_enc, six_g2)
  /\ 6 <= 6
  /\ In (hd 0%Z (nth 4 six_grid [])) (nth 4 six_grid [])
  /\ In (fmt3 (hd 0%Z (nth 4 six_grid [])) ++ "a.jpg")%string six_enc.
Proof.
  assert (L : 6 <= 6) by lia.
  assert (Hx : In (hd 0%Z (nth 4 six_grid [])) (nth 4 six_grid []))
    by (simpl; now left).
  split; [exact six_stratified|]. split; [exact six_encoded|].
  split; [exact L|]. split; [exact Hx|].
  exact (foil_row_is_encoded_from_six_conditions (catalog 6 6) 6 demo_seed
           (hd 0%Z (nth 4 six_grid [])) six_stratified six_encoded L Hx).
Defined.

(** Witness of X12 on the demo run. *)
Lemma every_column_is_tested_once_witness :
  generate_matched_bins_imgs demo_table 5 5 demo_seed
  = Ok (demo_grid, demo_bins, demo_g1)
  /\ generate_test_trials demo_grid demo_bins 5 demo_g2 = Ok (demo_tests, demo_g3)
  /\ Permutation (map target_of demo_tests)
                 (map (fun z => (fmt3 z ++ "a.jpg")%string)
                      (nth 0 demo_grid [] ++ nth 1 demo_grid []
                           ++ nth 3 demo_grid []))
  /\ Permutation (map lure_of demo_tests)
                 (map (fun z => (fmt3 z ++ "b.jpg")%string)
                      (nth 0 demo_grid [] ++ nth 2 demo_grid []
                           ++ nth 4 demo_grid [])).
Proof.
  split; [exact demo_stratified|]. split; [exact demo_tested|].
  exact (every_column_is_tested_once_per_type demo_table 5 5 demo_seed demo_g2
           demo_stratified demo_tested).
Defined.

(** Witness of X13 on the demo run. *)
Lemma every_test_target_was_encoded_witness :
  generate_trials demo_table 5 5 demo_seed = Ok (demo_enc, demo_tests, demo_g3)
  /\ Forall (fun trial => In (target_of trial) demo_enc) demo_tests.
Proof.
  split; [exact demo_run|].
  exact (every_test_target_was_encoded demo_table 5 5 demo_seed demo_run).
Defined.

(** Witness of X14 on the first trial of the demo run. *)
Lemma only_corresponding_trials_repeat_witness :
  valid_catalog demo_table
  /\ 5 mod length (bins_unique demo_table) = 0
  /\ generate_matched_bins_imgs demo_table 5 5 demo_seed
     = Ok (demo_grid, demo_bins, demo_g1)
  /\ generate_test_trials demo_grid demo_bins 5 demo_g2 = Ok (demo_tests, demo_g3)
  /\ In (hd [] demo_tests) demo_tests
  /\ (trial_type_of (hd [] demo_tests) = "A-A'"%string
      -> image_id (cell 0 (hd [] demo_tests)) = image_id (cell 1 (hd [] demo_tests)))
  /\ (trial_type_of (hd [] demo_tests) <> "A-A'"%string
      -> image_id (cell 0 (hd [] demo_tests)) <> image_id (cell 1 (hd [] demo_tests))).
Proof.
  assert (V : valid_catalog demo_table) by (apply catalog_valid; simpl; lia).
  assert (M : 5 mod length (bins_unique demo_table) = 0) by reflexivity.
  assert (Hin : In (hd [] demo_tests) demo_tests) by (simpl; now left).
  split; [exact V|]. split; [exact M|]. split; [exact demo_stratified|].
  split; [exact demo_tested|]. split; [exact Hin|].
  exact (only_corresponding_trials_repeat_an_identifier 5 5 demo_seed demo_g2
           (hd [] demo_tests) V M demo_stratified demo_tested Hin).
Defined.

(** Witness of X16 on the demo run. *)
Lemma grid_is_dealt_row_major_witness :
  generate_matched_bins_imgs demo_table 5 5 demo_seed
  = Ok (demo_grid, demo_bins, demo_g1)
  /\ exists shs,
      Forall2 (fun b sh => Permutation (images_of_bin demo_table b) sh)
              (bins_unique demo_table) shs
      /\ forall i, i < 5 ->
                   nth i demo_grid []
                   = concat (map (fun sh =>
                                    firstn (5 / length (bins_unique demo_table))
                                           (skipn (i * (5 / length (bins_unique demo_table))) sh))
                                 shs)
                       ++ repeat 0%Z
                            (5 - length (bins_unique demo_table)
                                 * (5 / length (bins_unique demo_table))).
Proof.
  split; [exact demo_stratified|].
  exact (grid_is_dealt_row_major demo_table 5 5 demo_seed demo_stratified).
Defined.

(** ** Errors of the pipeline, and its smallest run *)

Section PipelineErrors.

Context {G : Type} `{RandomSource G}.

(** X17.  Whatever the grid and [num_cond], every entry of the encoding
    list has eight characters and ends in [a.jpg], never in [b.jpg]: only
    the first variant of an image is shown at encoding. *)
Theorem encoding_shows_only_a_variants (arr : list (list Z)) (nc : nat) (g g' : G)
        (enc : list string) :
  generate_enc_trials arr nc g = Ok (enc, g') ->
  Forall (fun s => String.length s = 8
                   /\ ends_with "a.jpg" s = true
                   /\ ends_with "b.jpg" s = false) enc.
Proof.
  intros E. apply enc_trials_ok in E.
  apply Forall_forall. intros s Hs.
  apply (Permutation_in _ (Permutation_sym E)) in Hs.
  apply in_map_iff in Hs. destruct Hs as (z & <- & _).
  destruct (variant_suffix z) as (A1 & A2 & _).
  split; [|auto].
  destruct (fmt3_three_chars z) as (c1 & c2 & c3 & ->). reflexivity.
Qed.

(** X18.  The errors of the pipeline.  A table of fewer than two rows
    gives an [IndexError]; otherwise a bin that does not keep
    [num_cond * floor(img_per_cond / nbins)] images gives a [ValueError];
    otherwise fewer than five conditions give an [IndexError]; otherwise
    the error is a [ValueError] and the number of bins does not divide
    [img_per_cond]. *)
Theorem pipeline_error_kinds (table : list (Z * Z)) (nc ipc : nat) (g : G)
        (e : np_error) :
  generate_trials table nc ipc g = Err e ->
  let shape_ok :=
    Forall (fun b => Nat.min ipc (count_bin table b)
                     = nc * (ipc / length (bins_unique table)))
           (bins_unique table) in
  (length table < 2 /\ e = IndexError)
  \/ (2 <= length table /\ ~ shape_ok /\ e = ValueError)
  \/ (2 <= length table /\ shape_ok /\ nc < 5 /\ e = IndexError)
  \/ (2 <= length table /\ shape_ok /\ 5 <= nc
      /\ ipc mod length (bins_unique table) <> 0 /\ e = ValueError).
Proof.
  intros E shape_ok. unfold generate_trials in E. unfold bind at 1 in E.
  destruct (generate_matched_bins_imgs table nc ipc g)
    as [[[grid bins] g1]|e1] eqn:E1.
  - assert (R : returns (generate_matched_bins_imgs table nc ipc) g)
      by (eexists; exact E1).
    apply stratify_returns_iff in R. destruct R as [Hlen F].
    unfold bind at 1 in E.
    destruct (enc_trials_returns grid nc g1) as [[enc g2] E2]. rewrite E2 in E.
    unfold bind at 1 in E.
    destruct (generate_test_trials grid bins ipc g2) as [[tests g3]|e3] eqn:E3;
      [unfold ret in E; discriminate|].
    inversion E; subst e3. right. right.
    pose proof (grid_length _ _ _ _ E1) as Hrows.
    apply test_trials_error in E3 as K.
    destruct K as [[Hlt ->]|[Hge ->]].
    + left. repeat split; auto. lia.
    + right. repeat split; auto; [lia|].
      intros Hmod.
      assert (R : returns (generate_test_trials grid bins ipc) g2).
      { apply test_trials_returns; [lia | apply (grid_rows_length _ _ _ _ E1) |].
        rewrite (lure_bins_eq _ _ _ _ E1), repeat_each_length.
        pose proof (Nat.div_mod_eq ipc (length (bins_unique table))). lia. }
      destruct R as [r R]. congruence.
  - inversion E; subst e1.
    assert (N : ~ returns (generate_matched_bins_imgs table nc ipc) g).
    { intros [r R]. congruence. }
    apply stratify_error in E1. destruct E1 as [[Hlt ->]|[Hge ->]].
    + left. auto.
    + right. left. repeat split; auto.
      intros F. apply N. apply stratify_returns_iff. auto.
Qed.

(** X19.  Asking for no image per condition is accepted: for a table of
    at least two rows and at least five conditions the pipeline returns an
    empty encoding list and an empty test list, and the check at the end
    of the script then reports nothing. *)
Theorem zero_images_per_condition_give_empty_lists
        (table : list (Z * Z)) (nc : nat) (g : G) :
  2 <= length table ->
  5 <= nc ->
  exists g', generate_trials table nc 0 g = Ok ([], [], g')
             /\ self_check (@nil (list np_scalar)) = [].
Proof.
  intros Hlen Hnc.
  assert (R : returns (generate_trials table nc 0) g).
  { apply generate_trials_returns_iff. repeat split; auto.
    - apply Forall_forall. intros b Hb.
      rewrite Nat.Div0.div_0_l. simpl. lia.
    - apply Nat.Div0.mod_0_l. }
  destruct R as [[[enc tests] g'] E].
  destruct (generate_trials_ok _ _ _ _ E) as (grid & bins & g1 & g2 & E1 & E2 & E3).
  pose proof (enc_trials_length _ _ _ _ E1 E2) as Le.
  assert (Lt : length tests = 3 * 0).
  { eapply test_trials_length;
      [apply (grid_rows_length _ _ _ _ E1) | exact E3]. }
  rewrite Nat.mul_0_r in Le. simpl in Lt.
  destruct enc; [|discriminate]. destruct tests; [|discriminate].
  exists g'. split; [exact E | reflexivity].
Qed.

End PipelineErrors.

(** Witness of X17 on the demo run. *)
Lemma encoding_shows_only_a_variants_witness :
  generate_enc_trials demo_grid 5 demo_g1 = Ok (demo_enc, demo_g2)
  /\ Forall (fun s => String.length s = 8
                      /\ ends_with "a.jpg" s = true
                      /\ ends_with "b.jpg" s = false) demo_enc.
Proof.
  split; [exact demo_encoded|].
  exact (encoding_shows_only_a_variants demo_grid 5 demo_g1 demo_encoded).
Defined.

Lemma two_bins_run_fails :
  generate_trials (catalog 2 20) 5 10 demo_seed = Err ValueError.
Proof. vm_compute. reflexivity. Qed.

(** Witness of X18: two bins of twenty images, five conditions, ten images
    per condition. *)
Lemma pipeline_error_kinds_witness :
  generate_trials (catalog 2 20) 5 10 demo_seed = Err ValueError
  /\ 2 <= length (catalog 2 20)
  /\ ~ Forall (fun b => Nat.min 10 (count_bin (catalog 2 20) b)
                        = 5 * (10 / length (bins_unique (catalog 2 20))))
              (bins_unique (catalog 2 20)).
Proof.
  split; [exact two_bins_run_fails|].
  destruct (pipeline_error_kinds (catalog 2 20) 5 10 demo_seed two_bins_run_fails)
    as [[_ E]|[(L & N & _)|[(_ & _ & _ & E)|(_ & _ & _ & M & _)]]].
  - discriminate.
  - split; [exact L | exact N].
  - discriminate.
  - exfalso. apply M. reflexivity.
Defined.

(** Witness of X19 on the demo table. *)
Lemma zero_images_per_condition_witness :
  2 <= length demo_table
  /\ 5 <= 5
  /\ exists g', generate_trials demo_table 5 0 demo_seed = Ok ([], [], g')
                /\ self_check (@nil (list np_scalar)) = [].
Proof.
  assert (L : 2 <= length demo_table) by (vm_compute; lia).
  assert (C : 5 <= 5) by lia.
  split; [exact L|]. split; [exact C|].
  exact (zero_images_per_condition_give_empty_lists demo_table demo_seed L C).
Defined.
